(** * Secure dashboard: report pipeline of [app.py]

    A shallow embedding of the report-generation and time-filtering
    pipeline of [app.py]: the hand-written PDF generator [pdf_bytes], the
    statistics [stats_for], the alert styling [highlight_alerts], the time
    filter [time_filter_ui], the CSV export and the threshold configuration
    page [page_config].

    Conventions.
    - A Python [str] is a list of Unicode code points ([N]); [bytes] is a
      list of [byte].  String literals of the source are written with [lit]
      (text) and [blit] (bytes); the line feed is [nl].
    - A Python exception is a value of [exn]; a call that may raise returns
      a [result]. *)

From Stdlib Require Import ZArith NArith List Lia Bool.
From Stdlib Require Import Strings.String Strings.Ascii Strings.Byte.
From Stdlib Require Import DecimalString DecimalZ DecimalN DecimalFacts.
From Stdlib Require Import QArith PrimFloat FloatOps SpecFloat.
From Stdlib Require Uint63.
From stdpp Require Import gmap strings.
Import ListNotations.

Open Scope Z_scope.

(* ===================================================================== *)
(** * Part I: definitions                                                 *)
(* ===================================================================== *)

(** ** Python values: text, bytes, exceptions *)

Definition str := list N.
Definition bytes := list byte.

Definition lit (s : string) : str := map Byte.to_N (list_byte_of_string s).
Definition blit (s : string) : bytes := list_byte_of_string s.
Definition nl : bytes := [x0a].

Inductive exn :=
| UnicodeEncodeError
| TypeError
| ValueError
| KeyError
| IndexError.

Inductive result (A : Type) :=
| Ok (a : A)
| Raise (e : exn).
Arguments Ok {A} a.
Arguments Raise {A} e.

Definition bind {A B} (m : result A) (k : A -> result B) : result B :=
  match m with
  | Ok a => k a
  | Raise e => Raise e
  end.

Notation "'let*' x ':=' m 'in' k" := (bind m (fun x => k))
  (at level 10, x name, m at level 100, k at level 200).

(** [try: body except Exception: handler] *)
Definition try_except {A} (body : result A) (handler : A) : A :=
  match body with
  | Ok a => a
  | Raise _ => handler
  end.

Fixpoint mapM {A B} (f : A -> result B) (l : list A) : result (list B) :=
  match l with
  | [] => Ok []
  | a :: l' => let* b := f a in let* bs := mapM f l' in Ok (b :: bs)
  end.

(** [len(x)] *)
Definition len {A} (l : list A) : Z := Z.of_nat (length l).

(** [l[i]] on a list, for a non-negative index. *)
Definition index {A} (l : list A) (i : nat) : result A :=
  match nth_error l i with
  | Some a => Ok a
  | None => Raise IndexError
  end.

(** [enumerate(l)], numbering from [i]. *)
Fixpoint enumerate_from {A} (i : Z) (l : list A) : list (Z * A) :=
  match l with
  | [] => []
  | a :: l' => (i, a) :: enumerate_from (i + 1) l'
  end.
Definition enumerate {A} (l : list A) := enumerate_from 0 l.

(** [sep.join(l)] *)
Fixpoint join {A} (sep : list A) (l : list (list A)) : list A :=
  match l with
  | [] => []
  | [x] => x
  | x :: l' => x ++ sep ++ join sep l'
  end.

(** [s.replace(old, new)] for a one-character pattern [old]: every
    occurrence is replaced, left to right. *)
Definition replace (old : N) (new : str) (s : str) : str :=
  flat_map (fun c => if N.eqb c old then new else [c]) s.

(** [str(z)] of an integer, as text and as ASCII bytes. *)
Definition dec (z : Z) : string := NilZero.string_of_int (Z.to_int z).
Definition str_of_int (z : Z) : str := lit (dec z).
Definition bytes_of_int (z : Z) : bytes := blit (dec z).

(** The digits of a non-negative integer. *)
Definition uint_of_nonneg (z : Z) : Decimal.uint :=
  match z with
  | Zpos p => Pos.to_uint p
  | _ => Decimal.zero
  end.

(** [int(b)] of a decimal numeral. *)
Definition int_of_bytes (b : bytes) : option Z :=
  option_map Z.of_int (NilZero.int_of_string (string_of_list_byte b)).

(** [f"{z:010d}"]: zero padding to ten columns, the sign first. *)
Definition zfill (width : nat) (digits : bytes) : bytes :=
  repeat x30 (width - length digits) ++ digits.
Definition format_010d (z : Z) : bytes :=
  if z <? 0 then x2d :: zfill 9 (bytes_of_int (- z)) else zfill 10 (bytes_of_int z).

(** [s.encode("latin-1")]: one byte per code point, and
    [UnicodeEncodeError] at a code point above U+00FF. *)
Fixpoint encode_latin1 (s : str) : result bytes :=
  match s with
  | [] => Ok []
  | c :: s' =>
      match Byte.of_N c with
      | Some b => let* bs := encode_latin1 s' in Ok (b :: bs)
      | None => Raise UnicodeEncodeError
      end
  end.

(** Text that Latin-1 can encode. *)
Definition latin1 (s : str) : Prop := Forall (fun c => (c < 256)%N) s.

(** ** The PDF generator: [pdf_bytes] *)

Definition bslash : N := 92.
Definition lparen : N := 40.
Definition rparen : N := 41.

(** [esc = lambda s: s.replace("\\", "\\\\").replace("(", "\\(").replace(")", "\\)")] *)
Definition esc (s : str) : str :=
  replace rparen [bslash; rparen]
    (replace lparen [bslash; lparen]
       (replace bslash [bslash; bslash] s)).

(** The escaping the format asks for, one character at a time. *)
Definition esc_char (c : N) : str :=
  if N.eqb c bslash then [bslash; bslash]
  else if N.eqb c lparen then [bslash; lparen]
  else if N.eqb c rparen then [bslash; rparen]
  else [c].
Definition escaped (s : str) : str := flat_map esc_char s.

Definition y0 : Z := 760.
Definition lh : Z := 14.

(** [f"1 0 0 1 50 {y-i*lh} Tm ({esc(l)}) Tj"] *)
Definition text_op (il : Z * str) : str :=
  let '(i, l) := il in
  lit "1 0 0 1 50 " ++ str_of_int (y0 - i * lh) ++ lit " Tm (" ++ esc l ++ lit ") Tj".

Definition stream (lines : list str) : str :=
  lit "BT /F1 12 Tf " ++ join (lit " ") (map text_op (enumerate lines)) ++ lit " ET".

Definition obj1 : bytes := blit "1 0 obj << /Type /Catalog /Pages 2 0 R >> endobj" ++ nl.
Definition obj2 : bytes := blit "2 0 obj << /Type /Pages /Kids [3 0 R] /Count 1 >> endobj" ++ nl.
Definition obj3 : bytes :=
  blit "3 0 obj << /Type /Page /Parent 2 0 R /MediaBox [0 0 612 792] "
  ++ blit "/Resources << /Font << /F1 4 0 R >> >> /Contents 5 0 R >> endobj" ++ nl.
Definition obj4 : bytes :=
  blit "4 0 obj << /Type /Font /Subtype /Type1 /BaseFont /Helvetica >> endobj" ++ nl.
Definition obj5 (sb : bytes) : bytes :=
  (blit "5 0 obj << /Length " ++ bytes_of_int (len sb) ++ blit " >> stream" ++ nl)
  ++ sb ++ (nl ++ blit "endstream endobj" ++ nl).

(** The list [o]. *)
Definition objects (sb : bytes) : list bytes :=
  [blit "%PDF-1.4" ++ nl; obj1; obj2; obj3; obj4; obj5 sb].

(** [for p in o: off.append(len(out)); out += p], from a state [(off, out)]. *)
Definition place (st : list Z * bytes) (p : bytes) : list Z * bytes :=
  let '(off, out) := st in (off ++ [len out], out ++ p).
Definition layout (o : list bytes) : list Z * bytes :=
  fold_left place o ([], []).

Definition xref_entry (n : Z) : bytes := format_010d n ++ blit " 00000 n " ++ nl.
Definition xref_head : bytes :=
  blit "xref" ++ nl ++ blit "0 6" ++ nl ++ blit "0000000000 65535 f " ++ nl.
Definition trailer (xref_pos : Z) : bytes :=
  blit "trailer << /Size 6 /Root 1 0 R >>" ++ nl ++ blit "startxref" ++ nl
  ++ bytes_of_int xref_pos ++ nl ++ blit "%%EOF".

Definition pdf_bytes (lines : list str) : result bytes :=
  let* sb := encode_latin1 (stream lines) in
  let '(off, out) := layout (objects sb) in
  let xref_pos := len out in
  let* entries := mapM (fun i => let* n := index off i in Ok (xref_entry n)) (seq 1 5) in
  let xref := xref_head ++ concat entries in
  Ok (out ++ xref ++ trailer xref_pos).

(** The operator that places and shows the [i]-th line [l], its characters
    escaped one at a time. *)
Definition show_text (i : nat) (l : str) : str :=
  lit "1 0 0 1 50 " ++ str_of_int (760 - 14 * Z.of_nat i) ++ lit " Tm ("
  ++ escaped l ++ lit ") Tj".

(** Where each piece of [o] starts when the pieces are laid out from
    offset [start]. *)
Fixpoint offsets (start : Z) (o : list bytes) : list Z :=
  match o with
  | [] => []
  | p :: o' => start :: offsets (start + len p) o'
  end.

(** The document around an encoded content stream [sb]: the six pieces,
    the cross-reference table and the trailer. *)
Definition xref_table : bytes :=
  xref_head ++ xref_entry 9 ++ xref_entry 58 ++ xref_entry 115
  ++ xref_entry 241 ++ xref_entry 311.
Definition document (sb : bytes) : bytes :=
  let body := concat (objects sb) in
  body ++ xref_table ++ trailer (len body).

(** [s] occurs in [t] at byte (or character) offset [pos]. *)
Definition occurs_at {A} (s : list A) (pos : Z) (t : list A) : Prop :=
  exists pre post, t = pre ++ s ++ post /\ len pre = pos.
Definition occurs {A} (s t : list A) : Prop := exists pos, occurs_at s pos t.

(** ** Tables: the pandas [DataFrame] *)

(** A cell.  A float64 cell holds any binary64 number, NaN included (the
    missing number); an object cell holds text or [None]; a datetime cell
    holds a [Timestamp], in nanoseconds since the epoch, or [NaT]. *)
Inductive value :=
| VFloat (f : float)
| VStr (s : str)
| VNone
| VTime (ns : Z)
| VNaT.

(** A row carries its index label and one cell per column. *)
Record DataFrame := {
  columns : list string;
  rows : list (Z * list value)
}.

Fixpoint position (k : string) (cols : list string) : option nat :=
  match cols with
  | [] => None
  | c :: cols' => if String.eqb k c then Some O else option_map S (position k cols')
  end.

(** [k in df.columns] *)
Definition has_column (k : string) (df : DataFrame) : bool :=
  match position k (columns df) with Some _ => true | None => false end.

(** The cell of row [r] in column [k]. *)
Definition cell (df : DataFrame) (k : string) (r : Z * list value) : value :=
  match position k (columns df) with
  | Some i => nth i (snd r) VNone
  | None => VNone
  end.

(** [df[k]], for a column that is there. *)
Definition column (df : DataFrame) (k : string) : list value :=
  map (cell df k) (rows df).

(** [pd.isna] *)
Definition is_nan (f : float) : bool :=
  match Prim2SF f with
  | S754_nan => true
  | _ => false
  end.
Definition isna (v : value) : bool :=
  match v with
  | VFloat f => is_nan f
  | VStr _ => false
  | VNone => true
  | VTime _ => false
  | VNaT => true
  end.

(** [df.dropna(subset=[k])] *)
Definition dropna (k : string) (df : DataFrame) : DataFrame :=
  {| columns := columns df;
     rows := List.filter (fun r => negb (isna (cell df k r))) (rows df) |}.

(** [df.empty]: some axis has length zero. *)
Definition empty (df : DataFrame) : bool :=
  match rows df, columns df with
  | _ :: _, _ :: _ => false
  | _, _ => true
  end.

(** [df[mask]] for a boolean mask aligned with the rows. *)
Fixpoint select {A} (l : list A) (mask : list bool) : list A :=
  match l, mask with
  | a :: l', b :: mask' => if b then a :: select l' mask' else select l' mask'
  | _, _ => []
  end.
Definition loc (df : DataFrame) (mask : list bool) : DataFrame :=
  {| columns := columns df; rows := select (rows df) mask |}.

(** ** Dates and timestamps *)

(** [datetime.date]. *)
Record date := { year : Z; month : Z; day : Z }.

(** Days since 1970-01-01 of a civil date, and back. *)
Definition days_from_civil (d : date) : Z :=
  let y := if month d <=? 2 then year d - 1 else year d in
  let era := y / 400 in
  let yoe := y - era * 400 in
  let mp := if month d >? 2 then month d - 3 else month d + 9 in
  let doy := (153 * mp + 2) / 5 + day d - 1 in
  let doe := yoe * 365 + yoe / 4 - yoe / 100 + doy in
  era * 146097 + doe - 719468.

Definition civil_from_days (z : Z) : date :=
  let z := z + 719468 in
  let era := z / 146097 in
  let doe := z - era * 146097 in
  let yoe := (doe - doe / 1460 + doe / 36524 - doe / 146096) / 365 in
  let doy := doe - (365 * yoe + yoe / 4 - yoe / 100) in
  let mp := (5 * doy + 2) / 153 in
  let d := doy - (153 * mp + 2) / 5 + 1 in
  let m := if mp <? 10 then mp + 3 else mp - 9 in
  {| year := (yoe + era * 400) + (if m <=? 2 then 1 else 0); month := m; day := d |}.

Definition Timedelta_days (n : Z) : Z := n * 86400 * 1000000000.
Definition Timedelta_seconds (n : Z) : Z := n * 1000000000.

(** [pd.Timestamp(d)]: midnight of the date. *)
Definition Timestamp (d : date) : Z := Timedelta_days (days_from_civil d).

(** [ts.date()] *)
Definition date_of (ts : Z) : date := civil_from_days (ts / Timedelta_days 1).

(** [str(d)], the ISO form [YYYY-MM-DD]. *)
Definition isoformat (d : date) : str :=
  map Byte.to_N
    (zfill 4 (bytes_of_int (year d)) ++ blit "-" ++ zfill 2 (bytes_of_int (month d))
     ++ blit "-" ++ zfill 2 (bytes_of_int (day d))).

(** Comparison of a datetime cell with a [Timestamp]; a cell that is not a
    [Timestamp] does not compare. *)
Definition ts_of (v : value) : result Z :=
  match v with
  | VTime t => Ok t
  | _ => Raise TypeError
  end.

(** [series.min()] and [series.max()] of a non-empty datetime column. *)
Definition ts_min (col : list value) : result Z :=
  let* ts := mapM ts_of col in
  match ts with
  | [] => Raise ValueError
  | t :: ts' => Ok (fold_left Z.min ts' t)
  end.
Definition ts_max (col : list value) : result Z :=
  let* ts := mapM ts_of col in
  match ts with
  | [] => Raise ValueError
  | t :: ts' => Ok (fold_left Z.max ts' t)
  end.

(** ** The time filter: [time_filter_ui] *)

(** The options of the select box. *)
Inductive Choice := All | Days7 | Days14 | Days30 | Days90 | Custom.

(** [int(choice.split()[0])] *)
Definition days_of (c : Choice) : Z :=
  match c with
  | Days7 => 7
  | Days14 => 14
  | Days30 => 30
  | Days90 => 90
  | _ => 0
  end.

(** What the widgets return during one run of the page: the option picked
    in the select box, the two dates picked in the date inputs ([None]: the
    widget is untouched and returns its default), and the clock. *)
Record widgets := {
  choice_pick : option Choice;
  start_pick : option date;
  end_pick : option date;
  now : Z
}.

Definition widget {A} (picked : option A) (default : A) : A :=
  match picked with
  | Some a => a
  | None => default
  end.

(** The rows of [df] whose timestamp lies in [[lo, hi]]; [hi = None] leaves
    the window open above. *)
Definition between (df : DataFrame) (lo : Z) (hi : option Z) : result DataFrame :=
  let* mask :=
    mapM (fun r =>
            let* t := ts_of (cell df "timestamp" r) in
            Ok ((lo <=? t) && match hi with Some h => t <=? h | None => true end))
         (rows df) in
  Ok (loc df mask).

Definition time_filter_ui (df : DataFrame) (ui : widgets) : result (DataFrame * str) :=
  if negb (has_column "timestamp" df) then Ok (df, lit "All")
  else
    let df2 := dropna "timestamp" df in
    if empty df2 then Ok (df, lit "All")
    else
      let choice := widget (choice_pick ui) Days14 in
      match choice with
      | All => Ok (df2, lit "All")
      | Custom =>
          let* tmin := ts_min (column df2 "timestamp") in
          let* tmax := ts_max (column df2 "timestamp") in
          let min_d := date_of tmin in
          let max_d := date_of tmax in
          let start := widget (start_pick ui) min_d in
          let end_ := widget (end_pick ui) max_d in
          let start_ts := Timestamp start in
          let end_ts := Timestamp end_ + Timedelta_days 1 - Timedelta_seconds 1 in
          let* f := between df2 start_ts (Some end_ts) in
          Ok (f, lit "Custom: " ++ isoformat start ++ lit " to " ++ isoformat end_)
      | _ =>
          let days := days_of choice in
          let cutoff := now ui - Timedelta_days days in
          let* f := between df2 cutoff None in
          Ok (f, lit "Last " ++ str_of_int days ++ lit " days")
      end.

(** Tables as [load_df] hands them over: [pd.to_datetime(..., errors="coerce")]
    has turned every cell of the timestamp column into a [Timestamp] or [NaT]. *)
Definition is_time (v : value) : Prop :=
  match v with
  | VTime _ | VNaT => True
  | _ => False
  end.
Definition timestamps_parsed (df : DataFrame) : Prop :=
  Forall (fun r => is_time (cell df "timestamp" r)) (rows df).

(** A row has a valid timestamp. *)
Definition valid_ts (df : DataFrame) (r : Z * list value) : bool :=
  negb (isna (cell df "timestamp" r)).

(** The timestamp of row [r] lies in [[lo, hi]]. *)
Definition in_window (df : DataFrame) (lo hi : Z) (r : Z * list value) : bool :=
  match cell df "timestamp" r with
  | VTime t => (lo <=? t) && (t <=? hi)
  | _ => false
  end.

(** The timestamp of a row, for rows that have one. *)
Definition ts_or_zero (df : DataFrame) (r : Z * list value) : Z :=
  match cell df "timestamp" r with
  | VTime t => t
  | _ => 0
  end.

(** ** Numbers *)

(** The rational number that a finite float is. *)
Definition float_Q (f : float) : option Q :=
  match Prim2SF f with
  | S754_zero _ => Some (0 # 1)
  | S754_finite s m e =>
      let v := if s then Z.neg m else Z.pos m in
      Some (if 0 <=? e then inject_Z (v * 2 ^ e) else v # Z.to_pos (2 ^ (- e)))
  | _ => None
  end.

(** [f > t] for a float [f] and an integer [t]: Python compares the two
    exactly, NaN is greater than nothing and only [+inf] is infinite and
    greater. *)
Definition float_gt_int (f : float) (t : Z) : bool :=
  match Prim2SF f with
  | S754_nan => false
  | S754_infinity s => negb s
  | _ =>
      match float_Q f with
      | Some q => negb (Qle_bool q (inject_Z t))
      | None => false
      end
  end.

Definition metrics : list string := ["cpu"; "memory"; "disk"].
Definition is_metric (k : string) : bool := existsb (String.eqb k) metrics.

(** The order of the numbers that floats stand for: a finite float is its
    rational, the two infinities lie below and above every rational, and
    NaN is no number. *)
Inductive ext :=
| NegInf
| Fin (q : Q)
| PosInf.

Definition ext_of (f : float) : option ext :=
  match Prim2SF f with
  | S754_nan => None
  | S754_infinity s => Some (if s then NegInf else PosInf)
  | _ => option_map Fin (float_Q f)
  end.

Definition ext_le (a b : ext) : bool :=
  match a, b with
  | NegInf, _ => true
  | _, PosInf => true
  | Fin p, Fin q => Qle_bool p q
  | _, _ => false
  end.

(** [x <= y] on floats: false when either is NaN, and the two zeros are
    equal. *)
Definition float_le (x y : float) : bool :=
  match ext_of x, ext_of y with
  | Some a, Some b => ext_le a b
  | _, _ => false
  end.

(** The numbers of a float64 column: its cells that are not NaN. *)
Definition numbers (fs : list float) : list float :=
  List.filter (fun f => negb (is_nan f)) fs.

(** [float(n)] of a count. *)
Definition float_of_count (n : nat) : float :=
  PrimFloat.of_uint63 (Uint63.of_Z (Z.of_nat n)).

(** The sums of a list of floats.  Floating-point addition is not
    associative, and libraries differ in the order in which they add:
    numpy adds pairwise, in blocks, others from left to right.  A sum of
    [xs] is what any such order gives: the terms are those of [xs], each
    once and in any order, they are added two sums at a time, and a sum
    may start from a zero of either sign. *)
Inductive adds_up : list float -> float -> Prop :=
| adds_zero : adds_up [] PrimFloat.zero
| adds_neg_zero : adds_up [] PrimFloat.neg_zero
| adds_one x : adds_up [x] x
| adds_app xs ys s t :
    adds_up xs s -> adds_up ys t -> adds_up (xs ++ ys) (PrimFloat.add s t)
| adds_perm xs ys s :
    Permutation xs ys -> adds_up xs s -> adds_up ys s.

(** [m] is a mean of the numbers [xs]: a sum of them divided by how many
    they are, and NaN when there is none. *)
Definition mean_of (xs : list float) (m : float) : Prop :=
  match xs with
  | [] => is_nan m = true
  | _ => exists s, adds_up xs s
                   /\ m = PrimFloat.div s (float_of_count (length xs))
  end.

(** [x] is a maximum of the numbers [xs]: one of them, and none is
    greater; NaN when there is none.  Where the largest number is a zero
    and both zeros occur, either zero is a maximum. *)
Definition max_of (xs : list float) (x : float) : Prop :=
  match xs with
  | [] => is_nan x = true
  | _ => In x xs /\ Forall (fun y => float_le y x = true) xs
  end.

Definition min_of (xs : list float) (n : float) : Prop :=
  match xs with
  | [] => is_nan n = true
  | _ => In n xs /\ Forall (fun y => float_le n y = true) xs
  end.

(** What is taken of pandas' [Series.mean], [Series.max] and [Series.min]:
    on a float64 column each returns a float, the mean, a maximum and a
    minimum of the numbers of the column, the missing ones (NaN) skipped. *)
Definition reduces (Series_mean Series_max Series_min : list value -> result value)
  : Prop :=
  forall fs,
    (exists m, Series_mean (map VFloat fs) = Ok (VFloat m) /\ mean_of (numbers fs) m)
    /\ (exists x, Series_max (map VFloat fs) = Ok (VFloat x) /\ max_of (numbers fs) x)
    /\ (exists n, Series_min (map VFloat fs) = Ok (VFloat n) /\ min_of (numbers fs) n).

(** Reductions that meet [reduces], running from left to right.  They are
    not pandas' own, which add in another order: they show that [reduces]
    can be met, and the properties of [stats_for] hold for every
    implementation that meets it.  [None] in an object column is missing
    like NaN; text and timestamps do not reduce to a number
    ([TypeError], as for pandas' mean of a column of text). *)
Definition number_of (v : value) : result float :=
  match v with
  | VFloat f => Ok f
  | VNone => Ok PrimFloat.nan
  | _ => Raise TypeError
  end.
Definition present (col : list value) : result (list float) :=
  let* fs := mapM number_of col in
  Ok (numbers fs).
Definition reduce (op : float -> float -> float) (xs : list float) : float :=
  match xs with
  | [] => PrimFloat.nan
  | x :: xs' => fold_left op xs' x
  end.
Definition seq_mean (col : list value) : result value :=
  let* xs := present col in
  Ok (VFloat (match xs with
              | [] => PrimFloat.nan
              | _ => PrimFloat.div (fold_left PrimFloat.add xs PrimFloat.zero)
                                   (float_of_count (length xs))
              end)).
Definition seq_max (col : list value) : result value :=
  let* xs := present col in
  Ok (VFloat (reduce (fun a x => if float_le a x then x else a) xs)).
Definition seq_min (col : list value) : result value :=
  let* xs := present col in
  Ok (VFloat (reduce (fun a x => if float_le x a then x else a) xs)).

(** Every metric column of the table is a float64 column. *)
Definition metrics_float (df : DataFrame) : Prop :=
  forall k, In k metrics -> has_column k df = true ->
            exists fs, column df k = map VFloat fs.

(** How often the float [v] occurs in [xs], the two zeros taken as one. *)
Definition tally (v : float) (xs : list float) : nat :=
  length (List.filter (PrimFloat.eqb v) xs).

(** ** Statistics and alerts: [stats_for], [highlight_alerts] *)

Section Pandas.

(** [Series.mean], [Series.max] and [Series.min] are pandas' own, and
    [float(s)] of a text [s] is Python's; the functions below take them
    as they come. *)
Variables Series_mean Series_max Series_min : list value -> result value.
Variable float_of_str : str -> option float.

(** [float(v)] *)
Definition py_float (v : value) : result float :=
  match v with
  | VFloat f => Ok f
  | VStr s =>
      match float_of_str s with
      | Some f => Ok f
      | None => Raise ValueError
      end
  | _ => Raise TypeError
  end.

(** The body of the loop of [stats_for], for the metric [k]. *)
Definition stats_of (df : DataFrame) (k : string)
  : result (float * float * float) :=
  if has_column k df && (0 <? len (rows df)) then
    let* m := Series_mean (column df k) in
    let* fm := py_float m in
    let* x := Series_max (column df k) in
    let* fx := py_float x in
    let* n := Series_min (column df k) in
    let* fn := py_float n in
    Ok (fm, fx, fn)
  else Ok (PrimFloat.zero, PrimFloat.zero, PrimFloat.zero).

Fixpoint stats_loop (df : DataFrame) (ks : list string)
    (out : gmap string (float * float * float))
  : result (gmap string (float * float * float)) :=
  match ks with
  | [] => Ok out
  | k :: ks' => let* t := stats_of df k in stats_loop df ks' (<[k := t]> out)
  end.

Definition stats_for (df : DataFrame)
  : result (gmap string (float * float * float)) :=
  stats_loop df metrics ∅.

(** A row as [Styler.apply(..., axis=1)] passes it: a Series whose index
    is the column labels. *)
Definition Series := list (string * value).

Definition row_of (df : DataFrame) (r : Z * list value) : Series :=
  combine (columns df) (snd r).

(** [row[col]]; under a label that occurs twice it is a Series, which
    [float] rejects. *)
Definition getitem (row : Series) (col : string) : result value :=
  match List.filter (fun kv => String.eqb (fst kv) col) row with
  | [] => Raise KeyError
  | [kv] => Ok (snd kv)
  | _ => Raise TypeError
  end.

(** [thr[col]] *)
Definition threshold (thr : gmap string Z) (col : string) : result Z :=
  match thr !! col with
  | Some t => Ok t
  | None => Raise KeyError
  end.

Definition alert_css : string := "background-color:#ffd6d6".

(** [float(row[col]) > thr[col]] *)
Definition exceeds (row : Series) (thr : gmap string Z) (col : string)
  : result bool :=
  let* v := getitem row col in
  let* f := py_float v in
  let* t := threshold thr col in
  Ok (float_gt_int f t).

(** One turn of the loop of [_style]. *)
Definition cell_style (row : Series) (thr : gmap string Z) (col : string)
  : string :=
  if is_metric col then
    try_except (let* b := exceeds row thr col in
                Ok (if b then alert_css else ""%string))
               ""%string
  else ""%string.

Definition _style (row : Series) (thr : gmap string Z) : list string :=
  map (cell_style row thr) (map fst row).

(** [index.is_unique] *)
Fixpoint is_unique {A} (eqb : A -> A -> bool) (l : list A) : bool :=
  match l with
  | [] => true
  | a :: l' => negb (existsb (eqb a) l') && is_unique eqb l'
  end.

(** The styles that [df.style.apply(_style, axis=1)] computes when the
    table is drawn: one list of styles per row.  The [Styler] refuses a
    table in which a row label or a column label occurs twice
    ([KeyError]). *)
Definition highlight_alerts (df : DataFrame) (thr : gmap string Z)
  : result (list (list string)) :=
  if is_unique Z.eqb (map fst (rows df)) && is_unique String.eqb (columns df) then
    Ok (map (fun r => _style (row_of df r) thr) (rows df))
  else Raise KeyError.

End Pandas.

(** ** Session state and the configuration page: [page_config] *)

(** The session state holds a reference to the dictionary of thresholds;
    the dictionary itself lives in the heap, where every alias of it sees
    the same object. *)
Record session := {
  heap : gmap nat (gmap string Z);
  thr : option nat
}.

Definition new_session : session := {| heap := ∅; thr := None |}.

Definition defaults : gmap string Z :=
  <["cpu" := 80]> (<["memory" := 85]> (<["disk" := 90]> ∅)).

(** [st.session_state.setdefault("thr", {"cpu": 80, "memory": 85, "disk": 90})] *)
Definition setdefault_thr (s : session) : session :=
  match thr s with
  | Some _ => s
  | None =>
      let r := fresh (dom (heap s)) in
      {| heap := <[r := defaults]> (heap s); thr := Some r |}
  end.

(** The widgets of the configuration page during one run: the value each
    slider is set to ([None]: untouched, the slider returns its default)
    and whether the Save button was pressed. *)
Record config_widgets := {
  cpu_slider : option Z;
  memory_slider : option Z;
  disk_slider : option Z;
  save : bool
}.

(** [t[k]] and [t[k] = v] on the dictionary that [t] refers to. *)
Definition dict_get (s : session) (t : nat) (k : string) : result Z :=
  match heap s !! t with
  | Some d => match d !! k with Some v => Ok v | None => Raise KeyError end
  | None => Raise KeyError
  end.
Definition dict_set (s : session) (t : nat) (k : string) (v : Z) : session :=
  {| heap := alter (insert k v) t (heap s); thr := thr s |}.

(** [t[k] = st.slider(label, 0, 100, int(t[k]))] *)
Definition slide (s : session) (t : nat) (k : string) (picked : option Z)
  : result session :=
  let* cur := dict_get s t k in
  Ok (dict_set s t k (widget picked cur)).

Definition page_config (s : session) (ui : config_widgets) : result session :=
  match thr s with
  | None => Raise KeyError
  | Some t =>
      let* s1 := slide s t "cpu" (cpu_slider ui) in
      let* s2 := slide s1 t "memory" (memory_slider ui) in
      let* s3 := slide s2 t "disk" (disk_slider ui) in
      if save ui then Ok {| heap := heap s3; thr := Some t |} else Ok s3
  end.

(** The thresholds that the session holds: [st.session_state.thr]. *)
Definition thresholds (s : session) : option (gmap string Z) :=
  match thr s with
  | Some t => heap s !! t
  | None => None
  end.

(** ** The CSV export: [df_f.to_csv(index=False).encode("utf-8")] *)

(** [s.encode("utf-8")]: one to four bytes per code point, and
    [UnicodeEncodeError] at a surrogate. *)
Definition byte_of (n : N) : byte :=
  match Byte.of_N n with
  | Some b => b
  | None => x00
  end.
Definition utf8_char (c : N) : result bytes :=
  (if c <? 0x80 then Ok [byte_of c]
   else if c <? 0x800 then Ok [byte_of (0xC0 + c / 64); byte_of (0x80 + c mod 64)]
   else if c <? 0x10000 then
     if (0xD800 <=? c) && (c <=? 0xDFFF) then Raise UnicodeEncodeError
     else Ok [byte_of (0xE0 + c / 4096); byte_of (0x80 + (c / 64) mod 64);
              byte_of (0x80 + c mod 64)]
   else if c <? 0x110000 then
     Ok [byte_of (0xF0 + c / 262144); byte_of (0x80 + (c / 4096) mod 64);
         byte_of (0x80 + (c / 64) mod 64); byte_of (0x80 + c mod 64)]
   else Raise ValueError)%N.
Fixpoint encode_utf8 (s : str) : result bytes :=
  match s with
  | [] => Ok []
  | c :: s' =>
      let* b := utf8_char c in
      let* bs := encode_utf8 s' in
      Ok (b ++ bs)
  end.

(** Code points that UTF-8 can encode: the Unicode scalar values.  A
    Python [str] may also hold surrogates, which it cannot. *)
Definition scalar (c : N) : Prop :=
  (c < 0xD800 \/ 0xDFFF < c < 0x110000)%N.
Definition surrogate (c : N) : Prop := (0xD800 <= c <= 0xDFFF)%N.

(** The export.  [DataFrame.to_csv] is pandas' and writes the text; the
    code encodes what it returns. *)
Definition csv_export (to_csv : DataFrame -> result str) (df : DataFrame)
  : result bytes :=
  let* text := to_csv df in
  encode_utf8 text.

(** ** Reading a PDF literal string *)

Definition LF : N := 10.
Definition CR : N := 13.

(** How a PDF reader reads the body of a literal string, from just after
    the opening parenthesis: a backslash makes the next character literal
    (or stands for a control character), parentheses nest, and the string
    ends at the closing parenthesis at depth zero.  An end of line that is
    not escaped is read as one line feed, whether it was written as a
    carriage return, a line feed or both.  The result is the text and what
    follows the closing parenthesis.  Octal escapes and line continuations
    are left out: the reader gives up on them. *)
Definition escape_of (d : N) : option N :=
  (if (d =? 110) then Some 10
   else if (d =? 114) then Some 13
   else if (d =? 116) then Some 9
   else if (d =? 98) then Some 8
   else if (d =? 102) then Some 12
   else if (48 <=? d) && (d <=? 55) then None
   else if (d =? 10) || (d =? 13) then None
   else Some d)%N.

Fixpoint read_literal (depth : nat) (s : str) : option (str * str) :=
  match s with
  | [] => None
  | c :: s' =>
      if (c =? bslash)%N then
        match s' with
        | [] => None
        | d :: s'' =>
            match escape_of d, read_literal depth s'' with
            | Some x, Some (text, rest) => Some (x :: text, rest)
            | _, _ => None
            end
        end
      else if (c =? lparen)%N then
        match read_literal (S depth) s' with
        | Some (text, rest) => Some (c :: text, rest)
        | None => None
        end
      else if (c =? rparen)%N then
        match depth with
        | O => Some ([], s')
        | S k =>
            match read_literal k s' with
            | Some (text, rest) => Some (c :: text, rest)
            | None => None
            end
        end
      else if (c =? CR)%N then
        match s' with
        | [] => None
        | d :: s'' =>
            match (if (d =? LF)%N then read_literal depth s''
                   else read_literal depth s') with
            | Some (text, rest) => Some (LF :: text, rest)
            | None => None
            end
        end
      else
        match read_literal depth s' with
        | Some (text, rest) => Some (c :: text, rest)
        | None => None
        end
  end.

(** A text with its ends of line read that way: every carriage return,
    with the line feed that follows it if there is one, is a line feed. *)
Fixpoint eol (s : str) : str :=
  match s with
  | [] => []
  | c :: s' =>
      if (c =? CR)%N then
        LF :: match s' with
              | [] => []
              | d :: s'' => if (d =? LF)%N then eol s'' else eol s'
              end
      else c :: eol s'
  end.

(** Taking the backslashes off again: the character after a backslash is
    kept as it is. *)
Fixpoint unescape (s : str) : str :=
  match s with
  | [] => []
  | c :: s' =>
      if (c =? bslash)%N then
        match s' with
        | [] => []
        | d :: s'' => d :: unescape s''
        end
      else c :: unescape s'
  end.

(** ** Windows of the time filter *)

(** The timestamp of row [r] is at or after [lo]. *)
Definition since (df : DataFrame) (lo : Z) (r : Z * list value) : bool :=
  match cell df "timestamp" r with
  | VTime t => lo <=? t
  | _ => false
  end.

(** Every timestamp of the table is a whole number of seconds. *)
Definition whole_seconds (df : DataFrame) : Prop :=
  forall r t, In r (rows df) -> cell df "timestamp" r = VTime t ->
              t mod Timedelta_seconds 1 = 0.

(** ** Alert counts of the analysis page *)

(** Every row has one cell per column, as in a table read from SQL. *)
Definition rectangular (df : DataFrame) : Prop :=
  Forall (fun r => length (snd r) = length (columns df)) (rows df).

Section Counts.

(** [series > t], the comparison of a column with a number, is pandas'. *)
Variable Series_gt : list value -> Z -> result (list bool).

(** [int((df_f[k] > t[k]).sum()) if k in df_f.columns else 0] *)
Definition alert_count (df : DataFrame) (thr : gmap string Z) (k : string)
  : result Z :=
  if has_column k df then
    let* t := threshold thr k in
    let* m := Series_gt (column df k) t in
    Ok (Z.of_nat (length (List.filter (fun b : bool => b) m)))
  else Ok 0.

End Counts.

(** What is taken of pandas' [series > t] for an integer [t]: on a float64
    column it compares cell by cell, and returns a boolean per cell.
    pandas turns [t] into a float first, which changes nothing for an
    integer of at most 53 bits; for those the comparison is that of the
    numbers. *)
Definition compares_floats (Series_gt : list value -> Z -> result (list bool)) : Prop :=
  forall fs t, - 2 ^ 53 <= t <= 2 ^ 53 ->
               Series_gt (map VFloat fs) t = Ok (map (fun f => float_gt_int f t) fs).

(** ** Runs of the configuration page *)

(** One run of the script on the configuration page: the session defaults,
    then the page. *)
Definition rerun_config (s : session) (ui : config_widgets) : result session :=
  page_config (setdefault_thr s) ui.

Fixpoint reruns_config (s : session) (uis : list config_widgets) : result session :=
  match uis with
  | [] => Ok s
  | ui :: uis' => let* s' := rerun_config s ui in reruns_config s' uis'
  end.

(** A slider returns a value between its bounds, 0 and 100. *)
Definition pick_ok (p : option Z) : Prop :=
  match p with
  | Some v => 0 <= v <= 100
  | None => True
  end.
Definition sliders_ok (ui : config_widgets) : Prop :=
  pick_ok (cpu_slider ui) /\ pick_ok (memory_slider ui) /\ pick_ok (disk_slider ui).

(** The three thresholds are there and between 0 and 100. *)
Definition thresholds_ok (s : session) : Prop :=
  exists t d c m k,
    thr s = Some t /\ heap s !! t = Some d
    /\ d !! "cpu" = Some c /\ d !! "memory" = Some m /\ d !! "disk" = Some k
    /\ 0 <= c <= 100 /\ 0 <= m <= 100 /\ 0 <= k <= 100.

(** ** The data loader: [load_df] *)

(** [pd.DataFrame()] *)
Definition empty_frame : DataFrame := {| columns := []; rows := [] |}.

(** What the loader finds: whether the file [log.db] is there, and what
    connecting to it and [pd.read_sql_query] give, a table or an
    exception. *)
Record store := {
  db_exists : bool;
  query : result DataFrame
}.

(** [df[k] = series]: the cells of column [k] are replaced row by row, and
    a column that is not there yet is added at the end.  A series of
    another length than the table is refused. *)
Definition set_column (k : string) (vals : list value) (df : DataFrame)
  : result DataFrame :=
  if negb (length vals =? length (rows df))%nat then Raise ValueError
  else
    match position k (columns df) with
    | Some i =>
        Ok {| columns := columns df;
              rows := map (fun rv : (Z * list value) * value =>
                             (fst (fst rv), <[i := snd rv]> (snd (fst rv))))
                          (combine (rows df) vals) |}
    | None =>
        Ok {| columns := columns df ++ [k];
              rows := map (fun rv : (Z * list value) * value =>
                             (fst (fst rv), snd (fst rv) ++ [snd rv]))
                          (combine (rows df) vals) |}
    end.

Section Loader.

(** [pd.to_datetime(series, errors="coerce")] is pandas'. *)
Variable to_datetime : list value -> result (list value).

Definition load_df (st : store) : DataFrame :=
  if negb (db_exists st) then empty_frame
  else
    try_except
      (let* df := query st in
       if has_column "timestamp" df then
         let* ts := to_datetime (column df "timestamp") in
         set_column "timestamp" ts df
       else Ok df)
      empty_frame.

End Loader.

(** With [errors="coerce"], what [pd.to_datetime] returns is a datetime
    series as long as its argument: timestamps and [NaT]. *)
Definition coerces (to_datetime : list value -> result (list value)) : Prop :=
  forall col out, to_datetime col = Ok out ->
                  length out = length col /\ Forall is_time out.

(** ** The lines of the report: [page_analysis] *)

(** [d[k]] on a dictionary. *)
Definition item {A} (d : gmap string A) (k : string) : result A :=
  match d !! k with
  | Some a => Ok a
  | None => Raise KeyError
  end.

Section Report.

(** [f"{x:.2f}"] is Python's. *)
Variable fmt2 : float -> str.

(** [f"{name} avg={s[k][0]:.2f}%  max={s[k][1]:.2f}%  min={s[k][2]:.2f}%"] *)
Definition stat_line (name : string) (t : float * float * float) : str :=
  lit name ++ lit " avg=" ++ fmt2 (fst (fst t)) ++ lit "%  max=" ++ fmt2 (snd (fst t))
  ++ lit "%  min=" ++ fmt2 (snd t) ++ lit "%".

(** The list [lines] that the Generate PDF button builds: [gen] is the
    generation time as [strftime] wrote it, [label] and [nrows] come from
    the filter, [tr] is the time range as text, [s] is what [stats_for]
    returned, [t] the thresholds and [a_cpu], [a_mem], [a_disk] the alert
    counts. *)
Definition report_lines (gen label : str) (nrows : Z) (tr : str)
    (s : gmap string (float * float * float)) (t : gmap string Z)
    (a_cpu a_mem a_disk : Z) : result (list str) :=
  let* s_cpu := item s "cpu" in
  let* s_mem := item s "memory" in
  let* s_disk := item s "disk" in
  let* t_cpu := item t "cpu" in
  let* t_mem := item t "memory" in
  let* t_disk := item t "disk" in
  Ok [lit "System Log Analysis Report";
      lit "----------------------------------------";
      lit "Generated at: " ++ gen;
      lit "Filter: " ++ label;
      lit "Rows: " ++ str_of_int nrows;
      lit "Time range: " ++ tr;
      [];
      lit "Key Statistics:";
      stat_line "CPU   " s_cpu;
      stat_line "Memory" s_mem;
      stat_line "Disk  " s_disk;
      [];
      lit "Thresholds:";
      lit "CPU=" ++ str_of_int t_cpu ++ lit "%  Memory=" ++ str_of_int t_mem
        ++ lit "%  Disk=" ++ str_of_int t_disk ++ lit "%";
      lit "Alert Counts:";
      lit "CPU > " ++ str_of_int t_cpu ++ lit "%: " ++ str_of_int a_cpu;
      lit "Memory > " ++ str_of_int t_mem ++ lit "%: " ++ str_of_int a_mem;
      lit "Disk > " ++ str_of_int t_disk ++ lit "%: " ++ str_of_int a_disk].

End Report.

(** ** The dashboard: the latest reading against the thresholds *)

(** What a page draws. *)
Inductive event :=
| EvTitle (s : str)
| EvSubheader (s : str)
| EvWarning (s : str)
| EvMetric (label value delta : str)
| EvError (s : str)
| EvSuccess (s : str).

(** [k.upper()] of an ASCII name. *)
Definition upper (k : string) : str :=
  map (fun c => if (97 <=? c)%N && (c <=? 122)%N then (c - 32)%N else c) (lit k).

(** [df.iloc[-1]] of a table that has rows. *)
Definition iloc_last (df : DataFrame) : Z * list value := List.last (rows df) (0, []).

(** [series.get(k, default)] *)
Definition series_get (row : list (string * value)) (k : string) (default : value)
  : result value :=
  match List.filter (fun kv => String.eqb (fst kv) k) row with
  | [] => Ok default
  | [kv] => Ok (snd kv)
  | _ => Raise TypeError
  end.

Section Dashboard.

(** [f"{x:.2f}"] and [f"{v}"] are Python's, and so is [float(s)]. *)
Variable fmt2 : float -> str.
Variable show : value -> str.
Variable float_of_str : str -> option float.

(** [c.metric(label, f"{float(latest.get(k, 0)):.2f}", delta=f"thr {t[k]}%")] *)
Definition kpi (latest : Series) (t : gmap string Z) (label k : string)
  : result event :=
  let* v := series_get latest k (VFloat PrimFloat.zero) in
  let* f := py_float float_of_str v in
  let* tk := item t k in
  Ok (EvMetric (lit label) (fmt2 f) (lit "thr " ++ str_of_int tk ++ lit "%")).

(** One turn of the status loop. *)
Definition status (df : DataFrame) (latest : Series) (t : gmap string Z) (k : string)
  : result event :=
  if negb (has_column k df) then
    Ok (EvWarning (lit "Kolom '" ++ lit k ++ lit "' tidak ada di database."))
  else
    let* v := getitem latest k in
    let* tk := item t k in
    let msg := upper k ++ lit ": " ++ show v ++ lit "% (threshold "
               ++ str_of_int tk ++ lit "%)" in
    let* f := py_float float_of_str v in
    let* tk' := item t k in
    Ok (if float_gt_int f tk' then EvError msg else EvSuccess msg).

(** [page_dashboard] from its title to the end of the status loop (the
    table and the chart that follow are drawn under [try] and [except]):
    what a run that returns has drawn. *)
Definition dashboard_status (df : DataFrame) (t : gmap string Z)
  : result (list event) :=
  let title := EvTitle (127760%N :: lit " Secure Data Center Dashboard") in
  if empty df then
    Ok [title;
        EvWarning (lit "Database not found / table empty. Pastikan log.db dan tabel system_log ada.")]
  else
    let latest := row_of df (iloc_last df) in
    let* k1 := kpi latest t "CPU (%)" "cpu" in
    let* k2 := kpi latest t "Memory (%)" "memory" in
    let* k3 := kpi latest t "Disk (%)" "disk" in
    let* sts := mapM (status df latest t) metrics in
    Ok ([title; EvSubheader (9989%N :: lit " KPI (Latest Reading)"); k1; k2; k3;
         EvSubheader (128680%N :: lit " Status (Latest vs Threshold)")] ++ sts).

End Dashboard.

(* ===================================================================== *)
(** * Part II: properties                                                 *)
(* ===================================================================== *)

(** ** Generic facts *)

Lemma bind_Ok {A B} (m : result A) (k : A -> result B) b :
  (let* x := m in k x) = Ok b -> exists a, m = Ok a /\ k a = Ok b.
Proof. destruct m as [a|e]; simpl; [eauto | discriminate]. Qed.

Lemma bind_Raise {A B} (m : result A) (k : A -> result B) e :
  (let* x := m in k x) = Raise e ->
  m = Raise e \/ exists a, m = Ok a /\ k a = Raise e.
Proof. destruct m as [a|e']; simpl; [eauto | intros [= ->]; auto]. Qed.

Lemma len_app {A} (a b : list A) : len (a ++ b) = len a + len b.
Proof. unfold len. rewrite length_app. lia. Qed.

Lemma len_nonneg {A} (a : list A) : 0 <= len a.
Proof. unfold len. lia. Qed.

Lemma occurs_at_here {A} (s post : list A) : occurs_at s 0 (s ++ post).
Proof. exists [], post. auto. Qed.

Lemma occurs_at_shift {A} (s a t : list A) pos :
  occurs_at s pos t -> occurs_at s (len a + pos) (a ++ t).
Proof.
  intros (pre & post & -> & <-). exists (a ++ pre), post.
  rewrite len_app, <- app_assoc. auto.
Qed.

Lemma occurs_at_extend {A} (s t b : list A) pos :
  occurs_at s pos t -> occurs_at s pos (t ++ b).
Proof.
  intros (pre & post & -> & <-). exists pre, (post ++ b).
  rewrite <- !app_assoc. auto.
Qed.

Lemma occurs_refl {A} (s : list A) : occurs s s.
Proof. exists 0, [], []. rewrite app_nil_r. auto. Qed.

Lemma occurs_app_l {A} (s a t : list A) : occurs s t -> occurs s (a ++ t).
Proof. intros [pos H]. eexists. apply occurs_at_shift, H. Qed.

Lemma occurs_app_r {A} (s t b : list A) : occurs s t -> occurs s (t ++ b).
Proof. intros [pos H]. eexists. apply occurs_at_extend, H. Qed.

Lemma occurs_trans {A} (s t u : list A) : occurs s t -> occurs t u -> occurs s u.
Proof.
  intros (p & pre & post & -> & _) (q & pre' & post' & -> & _).
  exists (len (pre' ++ pre)), (pre' ++ pre), (post ++ post').
  rewrite <- !app_assoc. auto.
Qed.

Lemma occurs_join {A} (sep x : list A) l : In x l -> occurs x (join sep l).
Proof.
  induction l as [|y l IH]; [intros []|].
  intros [-> | Hin]; destruct l as [|z l]; simpl.
  - apply occurs_refl.
  - apply occurs_app_r, occurs_refl.
  - destruct Hin.
  - apply occurs_app_l, occurs_app_l, IH, Hin.
Qed.

Lemma enumerate_from_nth {A} (l : list A) k i x :
  nth_error l i = Some x -> In (k + Z.of_nat i, x) (enumerate_from k l).
Proof.
  revert k i. induction l as [|a l IH]; intros k [|i];
    cbn [nth_error enumerate_from In]; try discriminate.
  - intros [= ->]. left. f_equal. lia.
  - intros H. right. rewrite Nat2Z.inj_succ.
    replace (k + Z.succ (Z.of_nat i)) with (k + 1 + Z.of_nat i) by lia.
    apply IH, H.
Qed.

(** ** Decimal numerals: [int(str(z)) = z] *)

Lemma to_int_not_nil z :
  Z.to_int z <> Decimal.Pos Decimal.Nil /\ Z.to_int z <> Decimal.Neg Decimal.Nil.
Proof.
  destruct z; simpl; split; try discriminate; intros [= H];
    exact (DecimalPos.Unsigned.to_uint_nonnil _ H).
Qed.

Lemma int_of_bytes_of_int z : int_of_bytes (bytes_of_int z) = Some z.
Proof.
  unfold int_of_bytes, bytes_of_int, blit, dec.
  rewrite string_of_list_byte_of_string.
  destruct (to_int_not_nil z) as [H1 H2].
  rewrite NilZero.isi by assumption. simpl. f_equal. apply DecimalZ.of_to.
Qed.

Lemma dec_nonneg z :
  0 <= z ->
  dec z = NilEmpty.string_of_uint (uint_of_nonneg z)
  /\ uint_of_nonneg z <> Decimal.Nil /\ Z.of_uint (uint_of_nonneg z) = z.
Proof.
  intros Hz. destruct z as [|p|p]; try lia; simpl.
  - repeat split. discriminate.
  - unfold dec. simpl. pose proof (DecimalPos.Unsigned.to_uint_nonnil p) as Hn.
    repeat split; auto.
    + unfold NilZero.string_of_uint. destruct (Pos.to_uint p); congruence.
    + unfold Z.of_uint. rewrite DecimalPos.Unsigned.of_to. reflexivity.
Qed.

Lemma zeros_string k (l : bytes) :
  string_of_list_byte (repeat x30 k ++ l)
  = Nat.iter k (String "0"%char) (string_of_list_byte l).
Proof.
  induction k as [|k IH]; [reflexivity|].
  change (string_of_list_byte (repeat x30 (S k) ++ l))
    with (String "0"%char (string_of_list_byte (repeat x30 k ++ l))).
  rewrite IH. reflexivity.
Qed.

Lemma zeros_uint k d :
  Nat.iter k (String "0"%char) (NilEmpty.string_of_uint d)
  = NilEmpty.string_of_uint (Nat.iter k Decimal.D0 d).
Proof. induction k as [|k IH]; simpl; [reflexivity|]. f_equal. exact IH. Qed.

Lemma zeros_value k d : Z.of_uint (Nat.iter k Decimal.D0 d) = Z.of_uint d.
Proof. induction k as [|k IH]; simpl; [reflexivity|]. exact IH. Qed.

Lemma zeros_nonnil k d : d <> Decimal.Nil -> Nat.iter k Decimal.D0 d <> Decimal.Nil.
Proof. destruct k; simpl; [auto | discriminate]. Qed.

Lemma int_of_zfill w z : 0 <= z -> int_of_bytes (zfill w (bytes_of_int z)) = Some z.
Proof.
  intros Hz. destruct (dec_nonneg z Hz) as (Hd & Hn & Hv).
  unfold int_of_bytes, zfill, bytes_of_int, blit.
  rewrite zeros_string, string_of_list_byte_of_string, Hd, zeros_uint.
  set (d := Nat.iter _ Decimal.D0 _).
  assert (Hd' : d <> Decimal.Nil) by (apply zeros_nonnil, Hn).
  replace (NilEmpty.string_of_uint d) with (NilZero.string_of_int (Decimal.Pos d))
    by (simpl; unfold NilZero.string_of_uint; destruct d; congruence).
  rewrite NilZero.isi by congruence.
  simpl. f_equal. subst d. rewrite zeros_value. exact Hv.
Qed.

Lemma int_of_format_010d z : 0 <= z -> int_of_bytes (format_010d z) = Some z.
Proof.
  intros Hz. unfold format_010d.
  destruct (Z.ltb_spec z 0); [lia|]. apply int_of_zfill, Hz.
Qed.

(** ** Escaping *)

Lemma replace_app old new a b :
  replace old new (a ++ b) = replace old new a ++ replace old new b.
Proof. unfold replace. apply flat_map_app. Qed.

Lemma esc_cons c s : esc (c :: s) = esc_char c ++ esc s.
Proof.
  unfold esc, esc_char. change (c :: s) with ([c] ++ s).
  rewrite !replace_app. f_equal.
  unfold replace, bslash, lparen, rparen. simpl.
  destruct (N.eqb_spec c 92) as [->|H1]; [reflexivity|].
  simpl. destruct (N.eqb_spec c 40) as [->|H2]; [reflexivity|].
  simpl. destruct (N.eqb_spec c 41) as [->|H3]; reflexivity.
Qed.

(** The three chained [replace] calls amount to escaping every character
    once: the backslashes that the second and third call insert are not
    seen by the first. *)
Lemma esc_escaped s : esc s = escaped s.
Proof.
  induction s as [|c s IH]; [reflexivity|].
  rewrite esc_cons, IH. reflexivity.
Qed.

(** ** Latin-1 encoding *)

Lemma of_N_Some c : (c < 256)%N -> exists b, Byte.of_N c = Some b.
Proof.
  intros H. destruct (Byte.of_N c) as [b|] eqn:E; [eauto|].
  apply Byte.of_N_None_iff in E. lia.
Qed.

Lemma encode_latin1_total s : latin1 s -> exists b, encode_latin1 s = Ok b.
Proof.
  induction 1 as [|c s Hc _ [b IH]]; simpl; [eauto|].
  destruct (of_N_Some c Hc) as [x ->]. rewrite IH. simpl. eauto.
Qed.

Lemma encode_latin1_Ok s b : encode_latin1 s = Ok b -> latin1 s.
Proof.
  revert b. induction s as [|c s IH]; intros b; simpl; [constructor|].
  destruct (Byte.of_N c) as [x|] eqn:E; [|discriminate].
  intros H. apply bind_Ok in H as (bs & Hs & _). constructor; [|exact (IH _ Hs)].
  destruct (N.ltb_spec c 256) as [|Hge]; [assumption|].
  assert (Byte.of_N c = None) by (apply Byte.of_N_None_iff; lia). congruence.
Qed.

Lemma encode_latin1_raises s :
  ~ latin1 s -> encode_latin1 s = Raise UnicodeEncodeError.
Proof.
  induction s as [|c s IH]; intros H; simpl.
  - destruct H. constructor.
  - destruct (Byte.of_N c) as [x|] eqn:E; [|reflexivity].
    rewrite IH; [reflexivity|]. intros Hs. apply H. constructor; [|assumption].
    destruct (N.ltb_spec c 256) as [|Hge]; [assumption|].
    assert (Byte.of_N c = None) by (apply Byte.of_N_None_iff; lia). congruence.
Qed.

Lemma encode_latin1_app a b c :
  encode_latin1 (a ++ b) = Ok c ->
  exists a' b', encode_latin1 a = Ok a' /\ encode_latin1 b = Ok b' /\ c = a' ++ b'.
Proof.
  revert c. induction a as [|x a IH]; intros c; simpl.
  - intros H. exists [], c. auto.
  - destruct (Byte.of_N x) as [y|]; [|discriminate].
    intros H. apply bind_Ok in H as (bs & Hs & [= <-]).
    destruct (IH _ Hs) as (a' & b' & -> & -> & ->). simpl. eauto.
Qed.

Lemma encode_latin1_occurs s t tb :
  occurs s t -> encode_latin1 t = Ok tb ->
  exists sb, encode_latin1 s = Ok sb /\ occurs sb tb.
Proof.
  intros (pos & pre & post & -> & _) H.
  apply encode_latin1_app in H as (pre' & rest & _ & H & ->).
  apply encode_latin1_app in H as (sb & post' & Hs & _ & ->).
  exists sb. split; [assumption|]. apply occurs_app_l, occurs_app_r, occurs_refl.
Qed.

Lemma encode_latin1_lit s : encode_latin1 (lit s) = Ok (blit s).
Proof.
  unfold lit, blit. induction (list_byte_of_string s) as [|b l IH]; simpl; [reflexivity|].
  rewrite Byte.of_to_N, IH. reflexivity.
Qed.

(** ** The PDF generator *)

Lemma fold_place o off out :
  fold_left place o (off, out) = (off ++ offsets (len out) o, out ++ concat o).
Proof.
  revert off out. induction o as [|p o IH]; intros off out; simpl.
  - rewrite !app_nil_r. reflexivity.
  - rewrite IH, len_app, <- !app_assoc. reflexivity.
Qed.

Lemma layout_offsets o : layout o = (offsets 0 o, concat o).
Proof. unfold layout. rewrite fold_place. reflexivity. Qed.

Lemma offsets_objects sb : offsets 0 (objects sb) = [0; 9; 58; 115; 241; 311].
Proof. reflexivity. Qed.

(** The offset bookkeeping of the loop produces [document]. *)
Lemma pdf_bytes_document lines :
  pdf_bytes lines = let* sb := encode_latin1 (stream lines) in Ok (document sb).
Proof.
  unfold pdf_bytes. destruct (encode_latin1 (stream lines)) as [sb|e]; [|reflexivity].
  cbn [bind]. rewrite layout_offsets, offsets_objects.
  cbn [seq mapM index nth_error bind concat].
  rewrite app_nil_r. reflexivity.
Qed.

Lemma text_op_show_text i l : text_op (Z.of_nat i, l) = show_text i l.
Proof.
  unfold text_op, show_text, y0, lh. rewrite esc_escaped.
  replace (760 - Z.of_nat i * 14) with (760 - 14 * Z.of_nat i) by lia. reflexivity.
Qed.

Lemma stream_shows lines i l :
  nth_error lines i = Some l -> occurs (show_text i l) (stream lines).
Proof.
  intros H. unfold stream. apply occurs_app_l, occurs_app_r, occurs_join.
  rewrite <- text_op_show_text.
  apply (in_map text_op), (enumerate_from_nth lines 0 i l H).
Qed.

Lemma document_stream sb :
  occurs (blit "stream" ++ nl ++ sb ++ nl ++ blit "endstream") (document sb).
Proof.
  unfold document. apply occurs_app_r. cbn [objects concat].
  do 5 apply occurs_app_l. apply occurs_app_r. unfold obj5.
  exists (len (blit "5 0 obj << /Length " ++ bytes_of_int (len sb) ++ blit " >> ")),
    (blit "5 0 obj << /Length " ++ bytes_of_int (len sb) ++ blit " >> "),
    (blit " endobj" ++ nl).
  split; [|reflexivity]. rewrite <- !app_assoc. reflexivity.
Qed.

(** C1. For every list of lines, the content stream holds, for each line,
    the operator that shows it with backslash, [(] and [)] escaped; the
    three chained replacements of [esc] escape each character exactly once;
    and whenever [pdf_bytes] returns, the Latin-1 bytes of that operator
    lie in the content stream object of the output. *)
Theorem pdf_bytes_escapes_lines (lines : list str) (i : nat) (l : str) :
  nth_error lines i = Some l ->
  esc l = escaped l
  /\ occurs (show_text i l) (stream lines)
  /\ forall out, pdf_bytes lines = Ok out ->
       exists sb opb,
         encode_latin1 (stream lines) = Ok sb
         /\ encode_latin1 (show_text i l) = Ok opb
         /\ occurs opb sb
         /\ occurs (blit "stream" ++ nl ++ sb ++ nl ++ blit "endstream") out.
Proof.
  intros Hl. split; [apply esc_escaped|]. split; [apply stream_shows, Hl|].
  intros out Hout. rewrite pdf_bytes_document in Hout.
  apply bind_Ok in Hout as (sb & Hsb & [= <-]).
  destruct (encode_latin1_occurs _ _ _ (stream_shows _ _ _ Hl) Hsb) as (opb & Hop & Hocc).
  exists sb, opb. repeat split; auto. apply document_stream.
Qed.

(** [pdf_bytes(["A(b)\c"])] returns a document that holds [A\(b\)\\c]. *)
Lemma pdf_bytes_escapes_lines_witness :
  exists out, pdf_bytes [lit "A(b)\c"] = Ok out
              /\ occurs (blit "(A\(b\)\\c) Tj") out.
Proof.
  destruct (pdf_bytes_escapes_lines [lit "A(b)\c"] 0 (lit "A(b)\c") eq_refl)
    as (_ & _ & H).
  eexists. split; [vm_compute; reflexivity|].
  match goal with |- occurs _ ?o => destruct (H o) as (sb & opb & Hsb & Hop & H1 & H2) end.
  { vm_compute. reflexivity. }
  vm_compute in Hop. injection Hop as <-.
  eapply occurs_trans; [|exact H2].
  eapply occurs_trans; [|apply occurs_app_l, occurs_app_l, occurs_app_r, occurs_refl].
  eapply occurs_trans; [|exact H1].
  exists 18, (blit "1 0 0 1 50 760 Tm "), []. split; reflexivity.
Defined.

Lemma xref_table_bytes :
  xref_table
  = blit "xref" ++ nl ++ blit "0 6" ++ nl
    ++ blit "0000000000 65535 f " ++ nl
    ++ blit "0000000009 00000 n " ++ nl
    ++ blit "0000000058 00000 n " ++ nl
    ++ blit "0000000115 00000 n " ++ nl
    ++ blit "0000000241 00000 n " ++ nl
    ++ blit "0000000311 00000 n " ++ nl.
Proof. reflexivity. Qed.

Lemma objects_placed sb :
  let body := concat (objects sb) in
  occurs_at obj1 9 body /\ occurs_at obj2 58 body /\ occurs_at obj3 115 body
  /\ occurs_at obj4 241 body /\ occurs_at (obj5 sb) 311 body.
Proof.
  cbn [objects concat]. rewrite app_nil_r. repeat split.
  - exists (blit "%PDF-1.4" ++ nl), (obj2 ++ obj3 ++ obj4 ++ obj5 sb). split; reflexivity.
  - exists ((blit "%PDF-1.4" ++ nl) ++ obj1), (obj3 ++ obj4 ++ obj5 sb). split; reflexivity.
  - exists ((blit "%PDF-1.4" ++ nl) ++ obj1 ++ obj2), (obj4 ++ obj5 sb). split; reflexivity.
  - exists ((blit "%PDF-1.4" ++ nl) ++ obj1 ++ obj2 ++ obj3), (obj5 sb). split; reflexivity.
  - exists ((blit "%PDF-1.4" ++ nl) ++ obj1 ++ obj2 ++ obj3 ++ obj4), []. split; [|reflexivity].
    rewrite app_nil_r. reflexivity.
Qed.

(** C2. Whenever [pdf_bytes] returns a document, the document is its six
    pieces followed by the cross-reference table and the trailer; objects 1
    to 5 begin at byte offsets 9, 58, 115, 241 and 311, which are the
    numbers that the five [n] entries of the table spell; the trailer names
    object 1, the Catalog, as root; and the number after [startxref] is
    the offset of the first byte of the [xref] keyword. *)
Theorem pdf_bytes_xref (lines : list str) (out : bytes) :
  pdf_bytes lines = Ok out ->
  exists sb body,
    encode_latin1 (stream lines) = Ok sb
    /\ body = concat (objects sb)
    /\ out = body ++ xref_table ++ trailer (len body)
    /\ (occurs_at obj1 9 out /\ occurs_at obj2 58 out /\ occurs_at obj3 115 out
        /\ occurs_at obj4 241 out /\ occurs_at (obj5 sb) 311 out)
    /\ xref_table
       = xref_head ++ concat (map (fun n => format_010d n ++ blit " 00000 n " ++ nl)
                                  [9; 58; 115; 241; 311])
    /\ Forall (fun n => int_of_bytes (format_010d n) = Some n) [9; 58; 115; 241; 311]
    /\ occurs_at (blit "xref") (len body) out
    /\ trailer (len body)
       = blit "trailer << /Size 6 /Root 1 0 R >>" ++ nl ++ blit "startxref" ++ nl
         ++ bytes_of_int (len body) ++ nl ++ blit "%%EOF"
    /\ int_of_bytes (bytes_of_int (len body)) = Some (len body)
    /\ occurs (blit "/Type /Catalog") obj1.
Proof.
  intros Hout. rewrite pdf_bytes_document in Hout.
  apply bind_Ok in Hout as (sb & Hsb & [= <-]).
  exists sb, (concat (objects sb)).
  destruct (objects_placed sb) as (P1 & P2 & P3 & P4 & P5).
  split; [exact Hsb|]. split; [reflexivity|]. split; [reflexivity|].
  split; [unfold document; cbv zeta; repeat split; apply occurs_at_extend; assumption|].
  split; [reflexivity|].
  split; [repeat constructor; apply int_of_format_010d; lia|].
  split.
  { unfold document. cbv zeta.
    replace (len (concat (objects sb))) with (len (concat (objects sb)) + 0) at 1 by lia.
    apply occurs_at_shift. rewrite xref_table_bytes.
    exists [], (nl ++ blit "0 6" ++ nl
                ++ blit "0000000000 65535 f " ++ nl
                ++ blit "0000000009 00000 n " ++ nl
                ++ blit "0000000058 00000 n " ++ nl
                ++ blit "0000000115 00000 n " ++ nl
                ++ blit "0000000241 00000 n " ++ nl
                ++ blit "0000000311 00000 n " ++ nl
                ++ trailer (len (concat (objects sb)))).
    split; reflexivity. }
  split; [reflexivity|]. split; [apply int_of_bytes_of_int|].
  exists 11, (blit "1 0 obj << "), (blit " /Pages 2 0 R >> endobj" ++ nl).
  split; reflexivity.
Qed.

(** The theorem at [pdf_bytes(["Hi"])]: the table starts at byte 402. *)
Lemma pdf_bytes_xref_witness :
  exists out, pdf_bytes [lit "Hi"] = Ok out
              /\ occurs_at (blit "xref") 402 out
              /\ occurs_at (blit "startxref" ++ nl ++ blit "402" ++ nl ++ blit "%%EOF") 565 out.
Proof.
  assert (E : pdf_bytes [lit "Hi"]
              = Ok (document (blit "BT /F1 12 Tf 1 0 0 1 50 760 Tm (Hi) Tj ET")))
    by (vm_compute; reflexivity).
  destruct (pdf_bytes_xref _ _ E) as (sb & body & Hsb & Hb & Hout & _ & _ & _ & Hx & _).
  eexists. split; [exact E|].
  vm_compute in Hsb. injection Hsb as <-. subst body. split.
  - exact Hx.
  - rewrite Hout.
    exists (concat (objects (blit "BT /F1 12 Tf 1 0 0 1 50 760 Tm (Hi) Tj ET"))
            ++ xref_table ++ blit "trailer << /Size 6 /Root 1 0 R >>" ++ nl), [].
    split; vm_compute; reflexivity.
Defined.

(** ** The time filter *)

Lemma mapM_Ok_map {A B} (f : A -> result B) (g : A -> B) l :
  (forall a, In a l -> f a = Ok (g a)) -> mapM f l = Ok (map g l).
Proof.
  induction l as [|a l IH]; intros H; simpl; [reflexivity|].
  rewrite (H a) by (left; reflexivity). simpl.
  rewrite IH by (intros; apply H; right; assumption). reflexivity.
Qed.

Lemma select_map {A} (g : A -> bool) l : select l (map g l) = List.filter g l.
Proof.
  induction l as [|a l IH]; simpl; [reflexivity|].
  rewrite IH. reflexivity.
Qed.

Lemma filter_twice {A} (g h : A -> bool) l :
  List.filter h (List.filter g l) = List.filter (fun a => g a && h a) l.
Proof.
  induction l as [|a l IH]; simpl; [reflexivity|].
  destruct (g a); simpl; rewrite IH; reflexivity.
Qed.

Lemma filter_sublist {A} (g : A -> bool) l : sublist (List.filter g l) l.
Proof.
  induction l as [|a l IH]; simpl; [constructor|].
  destruct (g a); [apply sublist_skip | apply sublist_cons]; exact IH.
Qed.

Lemma has_column_columns k df : has_column k df = true -> columns df <> [].
Proof. unfold has_column. destruct (columns df); [discriminate|discriminate]. Qed.

Lemma dropna_no_valid df :
  (forall r, In r (rows df) -> valid_ts df r = false) ->
  rows (dropna "timestamp" df) = [].
Proof.
  intros H. simpl. induction (rows df) as [|r l IH]; simpl; [reflexivity|].
  fold (valid_ts df r). rewrite (H r) by (left; reflexivity).
  apply IH. intros; apply H; right; assumption.
Qed.

Lemma dropna_some_valid df :
  has_column "timestamp" df = true ->
  (exists r, In r (rows df) /\ valid_ts df r = true) ->
  empty (dropna "timestamp" df) = false.
Proof.
  intros Hc (r & Hin & Hv). unfold empty.
  assert (Hr : In r (rows (dropna "timestamp" df)))
    by (simpl; apply filter_In; split; assumption).
  destruct (rows (dropna "timestamp" df)); [destruct Hr|].
  simpl. pose proof (has_column_columns _ _ Hc). destruct (columns df); congruence.
Qed.

Lemma valid_time df r :
  is_time (cell df "timestamp" r) -> valid_ts df r = true ->
  cell df "timestamp" r = VTime (ts_or_zero df r).
Proof.
  unfold valid_ts, ts_or_zero. destruct (cell df "timestamp" r); simpl; try easy.
Qed.

Lemma mapM_map_Ok {A B C} (f : B -> result C) (h : A -> B) (g : A -> C) l :
  (forall a, In a l -> f (h a) = Ok (g a)) -> mapM f (map h l) = Ok (map g l).
Proof.
  induction l as [|a l IH]; intros H; simpl; [reflexivity|].
  rewrite (H a) by (left; reflexivity). simpl.
  rewrite IH by (intros; apply H; right; assumption). reflexivity.
Qed.

Lemma dropna_timestamps df :
  timestamps_parsed df ->
  mapM ts_of (column (dropna "timestamp" df) "timestamp")
  = Ok (map (ts_or_zero df) (rows (dropna "timestamp" df))).
Proof.
  intros Hp. unfold column. apply mapM_map_Ok. intros r Hin.
  simpl in Hin. apply filter_In in Hin as [Hin Hv].
  change (cell (dropna "timestamp" df) "timestamp" r) with (cell df "timestamp" r).
  unfold timestamps_parsed in Hp. rewrite List.Forall_forall in Hp. rewrite (valid_time _ _ (Hp r Hin) Hv). reflexivity.
Qed.

Lemma between_filter df lo hi :
  timestamps_parsed df ->
  between (dropna "timestamp" df) lo (Some hi)
  = Ok {| columns := columns df; rows := List.filter (in_window df lo hi) (rows df) |}.
Proof.
  intros Hp. unfold between.
  rewrite (mapM_Ok_map _ (fun r => (lo <=? ts_or_zero df r) && (ts_or_zero df r <=? hi))).
  - simpl bind. unfold loc. f_equal. f_equal. rewrite select_map. simpl rows.
    rewrite filter_twice. apply filter_ext_in. intros r Hin.
    unfold timestamps_parsed in Hp. rewrite List.Forall_forall in Hp. specialize (Hp r Hin).
    unfold in_window, ts_or_zero. fold (valid_ts df r). unfold valid_ts.
    destruct (cell df "timestamp" r); simpl in *; try easy.
  - intros r Hin. simpl in Hin. apply filter_In in Hin as [Hin Hv].
    change (cell (dropna "timestamp" df) "timestamp" r) with (cell df "timestamp" r).
    unfold timestamps_parsed in Hp. rewrite List.Forall_forall in Hp. rewrite (valid_time _ _ (Hp r Hin) Hv). reflexivity.
Qed.

Lemma end_of_day d :
  Timestamp d + Timedelta_days 1 - Timedelta_seconds 1
  = Timestamp d + Timedelta_seconds (23 * 3600 + 59 * 60 + 59).
Proof. unfold Timestamp, Timedelta_days, Timedelta_seconds. lia. Qed.

(** C6. Without a timestamp column, or without a single row that has a
    valid timestamp, the filter hands back the table it was given, rows
    with missing timestamps included, under the label [All], whatever the
    widgets say. *)
Theorem time_filter_noop (df : DataFrame) (ui : widgets) :
  has_column "timestamp" df = false
  \/ (forall r, In r (rows df) -> valid_ts df r = false) ->
  time_filter_ui df ui = Ok (df, lit "All").
Proof.
  intros [Hc | Hv]; unfold time_filter_ui.
  - rewrite Hc. reflexivity.
  - destruct (has_column "timestamp" df); [|reflexivity]. simpl negb. cbv iota.
    unfold empty. rewrite (dropna_no_valid df Hv). reflexivity.
Qed.

(** The filter on a table whose two timestamps are both missing. *)
Lemma time_filter_noop_witness :
  let df := {| columns := ["timestamp"; "cpu"];
               rows := [(0, [VNaT; VFloat 10]); (1, [VNaT; VFloat 20])] |} in
  time_filter_ui df {| choice_pick := Some Days7; start_pick := None;
                       end_pick := None; now := 0 |}
  = Ok (df, lit "All").
Proof.
  intros df. apply time_filter_noop. right.
  intros r [<- | [<- | []]]; reflexivity.
Defined.

(** C7. With the option [All] on a table that has a valid timestamp, the
    filter returns the rows that have a valid timestamp and only those, in
    source order and each as often as the source has it, under the label
    [All]. *)
Theorem time_filter_all (df : DataFrame) (ui : widgets) :
  has_column "timestamp" df = true ->
  (exists r, In r (rows df) /\ valid_ts df r = true) ->
  choice_pick ui = Some All ->
  exists f,
    time_filter_ui df ui = Ok (f, lit "All")
    /\ columns f = columns df
    /\ rows f = List.filter (valid_ts df) (rows df)
    /\ (forall r, In r (rows f) <-> In r (rows df) /\ valid_ts df r = true)
    /\ sublist (rows f) (rows df)
    /\ (NoDup (map fst (rows df)) -> NoDup (map fst (rows f))).
Proof.
  intros Hc Hv Hall. exists (dropna "timestamp" df).
  assert (Hsub : sublist (rows (dropna "timestamp" df)) (rows df))
    by apply filter_sublist.
  split.
  - unfold time_filter_ui. rewrite Hc. simpl negb. cbv iota.
    rewrite (dropna_some_valid df Hc Hv), Hall. reflexivity.
  - split; [reflexivity|]. split; [reflexivity|]. split; [|split].
    + intros r. simpl. apply filter_In.
    + exact Hsub.
    + intros Hnd. exact (sublist_NoDup _ _ Hnd (fmap_sublist fst _ _ Hsub)).
Qed.

(** The option [All] on three rows, the middle one without a timestamp. *)
Lemma time_filter_all_witness :
  let df := {| columns := ["timestamp"; "cpu"];
               rows := [(0, [VTime 5; VFloat 10]); (1, [VNaT; VFloat 20]);
                        (2, [VTime 3; VFloat 30])] |} in
  exists f,
    time_filter_ui df {| choice_pick := Some All; start_pick := None;
                         end_pick := None; now := 0 |} = Ok (f, lit "All")
    /\ rows f = [(0, [VTime 5; VFloat 10]); (2, [VTime 3; VFloat 30])].
Proof.
  intros df.
  destruct (time_filter_all df {| choice_pick := Some All; start_pick := None;
                                  end_pick := None; now := 0 |})
    as (f & Hf & _ & Hr & _).
  - reflexivity.
  - exists (0, [VTime 5; VFloat 10]). split; [left|]; reflexivity.
  - reflexivity.
  - exists f. split; [exact Hf | exact Hr].
Defined.

Lemma custom_bounds df :
  timestamps_parsed df ->
  empty (dropna "timestamp" df) = false ->
  exists tmin tmax,
    ts_min (column (dropna "timestamp" df) "timestamp") = Ok tmin
    /\ ts_max (column (dropna "timestamp" df) "timestamp") = Ok tmax.
Proof.
  intros Hp He. unfold ts_min, ts_max. rewrite (dropna_timestamps df Hp).
  unfold empty in He. destruct (rows (dropna "timestamp" df)); [discriminate|].
  simpl. eauto.
Qed.

(** C3. With the option [Custom] and the dates [start] and [end_] picked,
    on a loaded table that has a valid timestamp, the filter keeps exactly
    the rows whose timestamp lies between [start] 00:00:00 and [end_]
    23:59:59, both included, under the label [Custom: start to end_]: a row
    at [start] 00:00:00 and a row at [end_] 23:59:59 are kept (when [start]
    is not after [end_]), a row at 00:00:00 of the day after [end_] is not. *)
Theorem time_filter_custom (df : DataFrame) (ui : widgets) (start end_ : date) :
  has_column "timestamp" df = true ->
  timestamps_parsed df ->
  (exists r, In r (rows df) /\ valid_ts df r = true) ->
  choice_pick ui = Some Custom ->
  start_pick ui = Some start ->
  end_pick ui = Some end_ ->
  let lo := Timestamp start in
  let hi := Timestamp end_ + Timedelta_seconds (23 * 3600 + 59 * 60 + 59) in
  exists f,
    time_filter_ui df ui
    = Ok (f, lit "Custom: " ++ isoformat start ++ lit " to " ++ isoformat end_)
    /\ columns f = columns df
    /\ rows f = List.filter (in_window df lo hi) (rows df)
    /\ (forall r, In r (rows f) <->
                  In r (rows df)
                  /\ exists t, cell df "timestamp" r = VTime t /\ lo <= t <= hi)
    /\ (forall r, In r (rows df) ->
                  days_from_civil start <= days_from_civil end_ ->
                  cell df "timestamp" r = VTime lo -> In r (rows f))
    /\ (forall r, In r (rows df) ->
                  days_from_civil start <= days_from_civil end_ ->
                  cell df "timestamp" r = VTime hi -> In r (rows f))
    /\ (forall r, cell df "timestamp" r = VTime (Timestamp end_ + Timedelta_days 1) ->
                  ~ In r (rows f)).
Proof.
  intros Hc Hp Hv Hch Hs He lo hi.
  pose proof (dropna_some_valid df Hc Hv) as Hne.
  destruct (custom_bounds df Hp Hne) as (tmin & tmax & Hmin & Hmax).
  exists {| columns := columns df; rows := List.filter (in_window df lo hi) (rows df) |}.
  assert (Hin : forall r, In r (List.filter (in_window df lo hi) (rows df)) <->
                          In r (rows df)
                          /\ exists t, cell df "timestamp" r = VTime t /\ lo <= t <= hi).
  { intros r. rewrite filter_In. unfold in_window.
    split; intros [H1 H2]; (split; [exact H1|]).
    - destruct (cell df "timestamp" r); try discriminate.
      exists ns. split; [reflexivity|]. lia.
    - destruct H2 as (t & -> & Ht). apply andb_true_iff. lia. }
  split.
  { unfold time_filter_ui. rewrite Hc. simpl negb. cbv iota.
    rewrite Hne, Hch. simpl widget. cbv iota.
    rewrite Hmin, Hmax. simpl bind. rewrite Hs, He. simpl widget.
    rewrite end_of_day, (between_filter df _ _ Hp). reflexivity. }
  split; [reflexivity|]. split; [reflexivity|]. split; [exact Hin|].
  simpl rows. unfold Timestamp, Timedelta_days, Timedelta_seconds in *.
  repeat split.
  - intros r Hr Hord Hcell. apply Hin. split; [exact Hr|].
    exists lo. split; [exact Hcell|]. subst lo hi. lia.
  - intros r Hr Hord Hcell. apply Hin. split; [exact Hr|].
    exists hi. split; [exact Hcell|]. subst lo hi. lia.
  - intros r Hcell Hr. apply Hin in Hr as (_ & t & Ht & Hlo & Hhi).
    rewrite Hcell in Ht. injection Ht as <-. subst hi. lia.
Qed.

(** January 2024 on four rows: midnight of the 1st, 23:59:59 of the 31st,
    midnight of 1 February, and a row without a timestamp. *)
Lemma time_filter_custom_witness :
  let jan1 := {| year := 2024; month := 1; day := 1 |} in
  let jan31 := {| year := 2024; month := 1; day := 31 |} in
  let r0 := (0, [VTime (Timestamp jan1); VFloat 10]) in
  let r1 := (1, [VTime (Timestamp jan31 + Timedelta_seconds 86399); VFloat 20]) in
  let r2 := (2, [VTime (Timestamp jan31 + Timedelta_days 1); VFloat 30]) in
  let r3 := (3, [VNaT; VFloat 40]) in
  let df := {| columns := ["timestamp"; "cpu"]; rows := [r0; r1; r2; r3] |} in
  exists f,
    time_filter_ui df {| choice_pick := Some Custom; start_pick := Some jan1;
                         end_pick := Some jan31; now := 0 |}
    = Ok (f, lit "Custom: 2024-01-01 to 2024-01-31")
    /\ rows f = [r0; r1].
Proof.
  intros jan1 jan31 r0 r1 r2 r3 df.
  destruct (time_filter_custom df
              {| choice_pick := Some Custom; start_pick := Some jan1;
                 end_pick := Some jan31; now := 0 |} jan1 jan31)
    as (f & Hf & _ & Hr & _); try reflexivity.
  - repeat constructor.
  - exists r0. split; [left|]; reflexivity.
  - exists f. split; [exact Hf | exact Hr].
Defined.

(** ** The order of floats and the reductions *)

Lemma ext_le_refl a : ext_le a a = true.
Proof. destruct a; simpl; [reflexivity | | reflexivity]. apply Qle_bool_iff, Qle_refl. Qed.

Lemma ext_le_total a b : ext_le a b = true \/ ext_le b a = true.
Proof.
  destruct a as [|p|], b as [|q|]; simpl; auto.
  destruct (Qlt_le_dec p q) as [H|H].
  - left. apply Qle_bool_iff, Qlt_le_weak, H.
  - right. apply Qle_bool_iff, H.
Qed.

Lemma ext_le_trans a b c : ext_le a b = true -> ext_le b c = true -> ext_le a c = true.
Proof.
  destruct a as [|p|], b as [|q|], c as [|r|]; simpl; try congruence.
  rewrite !Qle_bool_iff. apply Qle_trans.
Qed.

(** A float that is not NaN stands for a number. *)
Lemma ext_of_number x : is_nan x = false -> exists a, ext_of x = Some a.
Proof.
  unfold is_nan, ext_of, float_Q. destruct (Prim2SF x); simpl; eauto. discriminate.
Qed.

Lemma float_le_refl x : is_nan x = false -> float_le x x = true.
Proof.
  intros H. destruct (ext_of_number x H) as [a Ha].
  unfold float_le. rewrite Ha. apply ext_le_refl.
Qed.

Lemma float_le_total x y :
  is_nan x = false -> is_nan y = false -> float_le x y = true \/ float_le y x = true.
Proof.
  intros Hx Hy. destruct (ext_of_number x Hx) as [a Ha], (ext_of_number y Hy) as [b Hb].
  unfold float_le. rewrite Ha, Hb. apply ext_le_total.
Qed.

Lemma float_le_trans x y z :
  float_le x y = true -> float_le y z = true -> float_le x z = true.
Proof.
  unfold float_le.
  destruct (ext_of x) as [a|], (ext_of y) as [b|], (ext_of z) as [c|]; try congruence.
  apply ext_le_trans.
Qed.

Lemma numbers_not_nan fs : Forall (fun x => is_nan x = false) (numbers fs).
Proof.
  apply List.Forall_forall. intros x Hx. apply filter_In in Hx as [_ Hx].
  apply negb_true_iff, Hx.
Qed.

(** Adding from left to right gives a sum. *)
Lemma adds_up_fold xs : forall ys acc,
  adds_up ys acc -> adds_up (ys ++ xs) (fold_left PrimFloat.add xs acc).
Proof.
  induction xs as [|x xs IH]; intros ys acc H; simpl.
  - rewrite app_nil_r. exact H.
  - replace (ys ++ x :: xs) with ((ys ++ [x]) ++ xs) by (rewrite <- app_assoc; reflexivity).
    apply IH. apply adds_app; [exact H | apply adds_one].
Qed.

Lemma seq_mean_of xs :
  mean_of xs (match xs with
              | [] => PrimFloat.nan
              | _ => PrimFloat.div (fold_left PrimFloat.add xs PrimFloat.zero)
                                   (float_of_count (length xs))
              end).
Proof.
  destruct xs as [|x xs]; [reflexivity|].
  exists (fold_left PrimFloat.add (x :: xs) PrimFloat.zero). split; [|reflexivity].
  exact (adds_up_fold (x :: xs) [] _ adds_zero).
Qed.

(** A fold that keeps the larger of two numbers ends on a number of the
    list that none exceeds. *)
Lemma fold_max xs : forall a,
  is_nan a = false -> Forall (fun x => is_nan x = false) xs ->
  let r := fold_left (fun a x => if float_le a x then x else a) xs a in
  In r (a :: xs) /\ float_le a r = true /\ Forall (fun y => float_le y r = true) xs.
Proof.
  induction xs as [|x xs IH]; intros a Ha Hxs; cbn [fold_left].
  - split; [left; reflexivity|]. split; [apply float_le_refl, Ha | constructor].
  - inversion Hxs as [|? ? Hx Hxs']; subst.
    destruct (float_le a x) eqn:E.
    + destruct (IH x Hx Hxs') as (Hin & Hle & Hall).
      split; [right; exact Hin|]. split; [exact (float_le_trans _ _ _ E Hle)|].
      constructor; assumption.
    + destruct (IH a Ha Hxs') as (Hin & Hle & Hall).
      split; [destruct Hin as [<- | Hin]; [left; reflexivity | right; right; exact Hin]|].
      split; [exact Hle|]. constructor; [|exact Hall].
      destruct (float_le_total a x Ha Hx) as [H|H]; [congruence|].
      exact (float_le_trans _ _ _ H Hle).
Qed.

Lemma fold_min xs : forall a,
  is_nan a = false -> Forall (fun x => is_nan x = false) xs ->
  let r := fold_left (fun a x => if float_le x a then x else a) xs a in
  In r (a :: xs) /\ float_le r a = true /\ Forall (fun y => float_le r y = true) xs.
Proof.
  induction xs as [|x xs IH]; intros a Ha Hxs; cbn [fold_left].
  - split; [left; reflexivity|]. split; [apply float_le_refl, Ha | constructor].
  - inversion Hxs as [|? ? Hx Hxs']; subst.
    destruct (float_le x a) eqn:E.
    + destruct (IH x Hx Hxs') as (Hin & Hle & Hall).
      split; [right; exact Hin|]. split; [exact (float_le_trans _ _ _ Hle E)|].
      constructor; assumption.
    + destruct (IH a Ha Hxs') as (Hin & Hle & Hall).
      split; [destruct Hin as [<- | Hin]; [left; reflexivity | right; right; exact Hin]|].
      split; [exact Hle|]. constructor; [|exact Hall].
      destruct (float_le_total a x Ha Hx) as [H|H]; [|congruence].
      exact (float_le_trans _ _ _ Hle H).
Qed.

Lemma seq_max_of xs :
  Forall (fun x => is_nan x = false) xs ->
  max_of xs (reduce (fun a x => if float_le a x then x else a) xs).
Proof.
  intros H. destruct xs as [|a xs]; [reflexivity|].
  inversion H as [|? ? Ha Hxs]; subst.
  destruct (fold_max xs a Ha Hxs) as (Hin & Hle & Hall).
  split; [exact Hin|]. constructor; assumption.
Qed.

Lemma seq_min_of xs :
  Forall (fun x => is_nan x = false) xs ->
  min_of xs (reduce (fun a x => if float_le x a then x else a) xs).
Proof.
  intros H. destruct xs as [|a xs]; [reflexivity|].
  inversion H as [|? ? Ha Hxs]; subst.
  destruct (fold_min xs a Ha Hxs) as (Hin & Hle & Hall).
  split; [exact Hin|]. constructor; assumption.
Qed.

Lemma present_floats fs : present (map VFloat fs) = Ok (numbers fs).
Proof.
  unfold present.
  assert (E : mapM number_of (map VFloat fs) = Ok fs).
  { induction fs as [|f fs IH]; [reflexivity|]. cbn [map mapM number_of bind].
    rewrite IH. reflexivity. }
  rewrite E. reflexivity.
Qed.

(** The reductions from left to right meet the specification: it can be
    met. *)
Lemma seq_reduces : reduces seq_mean seq_max seq_min.
Proof.
  intros fs. unfold seq_mean, seq_max, seq_min. rewrite present_floats. cbn [bind].
  split; [|split]; eexists; (split; [reflexivity|]).
  - apply seq_mean_of.
  - apply seq_max_of, numbers_not_nan.
  - apply seq_min_of, numbers_not_nan.
Qed.

(** The sums of the readings 90, 50 and 85.  The numbers are small
    integers, every partial sum is exact, and so every order of adding
    gives the same float: 225. *)
Lemma tally_app v xs ys : tally v (xs ++ ys) = (tally v xs + tally v ys)%nat.
Proof. unfold tally. rewrite List.filter_app, length_app. reflexivity. Qed.

Lemma tally_perm v xs ys : Permutation xs ys -> tally v xs = tally v ys.
Proof.
  unfold tally. induction 1 as [|x xs ys _ IH|x y xs|xs ys zs _ IH1 _ IH2]; simpl.
  - reflexivity.
  - destruct (PrimFloat.eqb v x); simpl; rewrite IH; reflexivity.
  - destruct (PrimFloat.eqb v x), (PrimFloat.eqb v y); reflexivity.
  - rewrite IH1. exact IH2.
Qed.

Lemma adds_up_readings xs s :
  adds_up xs s ->
  Forall (fun x => x = 90 \/ x = 50 \/ x = 85)%float xs ->
  (tally 90 xs <= 1)%nat -> (tally 50 xs <= 1)%nat -> (tally 85 xs <= 1)%nat ->
  match tally 90 xs, tally 50 xs, tally 85 xs with
  | O, O, O => s = PrimFloat.zero \/ s = PrimFloat.neg_zero
  | S _, O, O => s = 90%float
  | O, S _, O => s = 50%float
  | O, O, S _ => s = 85%float
  | S _, S _, O => s = 140%float
  | S _, O, S _ => s = 175%float
  | O, S _, S _ => s = 135%float
  | S _, S _, S _ => s = 225%float
  end.
Proof.
  induction 1 as [| |x|xs ys s t Hs IHs Ht IHt|xs ys s Hp Hs IH]; intros Hall H90 H50 H85.
  - left. reflexivity.
  - right. reflexivity.
  - inversion Hall as [|? ? Hx _]; subst.
    destruct Hx as [-> | [-> | ->]]; reflexivity.
  - apply List.Forall_app in Hall as [Hxs Hys].
    rewrite !tally_app in *.
    specialize (IHs Hxs ltac:(lia) ltac:(lia) ltac:(lia)).
    specialize (IHt Hys ltac:(lia) ltac:(lia) ltac:(lia)).
    destruct (tally 90 xs) as [|[|?]], (tally 90 ys) as [|[|?]]; try lia;
    destruct (tally 50 xs) as [|[|?]], (tally 50 ys) as [|[|?]]; try lia;
    destruct (tally 85 xs) as [|[|?]], (tally 85 ys) as [|[|?]]; try lia;
    cbn [Nat.add] in *;
    repeat match goal with
           | H : _ \/ _ |- _ => destruct H
           end; subst;
    first [reflexivity | left; reflexivity | right; reflexivity].
  - rewrite <- !(tally_perm _ _ _ Hp).
    apply IH; rewrite ?(tally_perm _ _ _ Hp); try assumption.
    exact (Permutation_Forall (Permutation_sym Hp) Hall).
Qed.

Lemma readings_numbers : numbers [90; 50; 85]%float = [90; 50; 85]%float.
Proof. reflexivity. Qed.

Lemma mean_of_readings m : mean_of [90; 50; 85]%float m -> m = 75%float.
Proof.
  intros (s & Hs & ->).
  assert (E : s = 225%float).
  { apply (adds_up_readings _ _ Hs); [|cbn; lia ..].
    repeat first [apply List.Forall_nil | apply List.Forall_cons; [auto|]]. }
  rewrite E. reflexivity.
Qed.

Lemma max_of_readings x : max_of [90; 50; 85]%float x -> x = 90%float.
Proof.
  intros [Hin Hall].
  inversion Hall as [|? ? H90 _]; subst.
  destruct Hin as [<- | [<- | [<- | []]]]; [reflexivity | |];
    vm_compute in H90; discriminate.
Qed.

Lemma min_of_readings n : min_of [90; 50; 85]%float n -> n = 50%float.
Proof.
  intros [Hin Hall].
  inversion Hall as [|? ? _ Hall']; subst.
  inversion Hall' as [|? ? H50 _]; subst.
  destruct Hin as [<- | [<- | [<- | []]]]; [|reflexivity|];
    vm_compute in H50; discriminate.
Qed.

(** ** Statistics *)

Section PandasFacts.

Variables Series_mean Series_max Series_min : list value -> result value.
Variable float_of_str : str -> option float.

Local Abbreviation statsOf := (stats_of Series_mean Series_max Series_min float_of_str).
Local Abbreviation statsLoop := (stats_loop Series_mean Series_max Series_min float_of_str).
Local Abbreviation statsFor := (stats_for Series_mean Series_max Series_min float_of_str).

Lemma stats_loop_other df ks out out' k :
  statsLoop df ks out = Ok out' -> ~ In k ks -> out' !! k = out !! k.
Proof.
  revert out. induction ks as [|k' ks IH]; intros out; simpl.
  - intros [= <-] _. reflexivity.
  - intros H Hk. apply bind_Ok in H as (t & _ & H).
    rewrite (IH _ H) by tauto. apply lookup_insert_ne. intros ->. tauto.
Qed.

Lemma stats_loop_lookup df ks out out' k :
  NoDup ks -> statsLoop df ks out = Ok out' -> In k ks ->
  exists t, statsOf df k = Ok t /\ out' !! k = Some t.
Proof.
  intros Hnd. revert out. induction Hnd as [|k' ks Hk' Hnd IH]; intros out; simpl.
  - intros _ [].
  - intros H Hin. apply bind_Ok in H as (t & Ht & H).
    destruct Hin as [-> | Hin]; [|exact (IH _ H Hin)].
    exists t. split; [exact Ht|].
    rewrite list_elem_of_In in Hk'.
    rewrite (stats_loop_other _ _ _ _ _ H Hk'). apply lookup_insert_eq.
Qed.

Lemma stats_of_sentinel df k :
  has_column k df = false \/ rows df = [] ->
  statsOf df k = Ok (PrimFloat.zero, PrimFloat.zero, PrimFloat.zero).
Proof.
  unfold stats_of. intros [-> | ->]; [reflexivity|].
  rewrite andb_false_r. reflexivity.
Qed.

(** On a float64 column of a table with rows, the triple is a mean, a
    maximum and a minimum of the numbers of the column. *)
Lemma stats_of_reduces df k fs :
  reduces Series_mean Series_max Series_min ->
  has_column k df = true -> rows df <> [] ->
  column df k = map VFloat fs ->
  exists m x n,
    statsOf df k = Ok (m, x, n)
    /\ mean_of (numbers fs) m /\ max_of (numbers fs) x /\ min_of (numbers fs) n.
Proof.
  intros Hred Hc Hr Hcol.
  destruct (Hred fs) as ((m & Em & Hm) & (x & Ex & Hx) & (n & En & Hn)).
  exists m, x, n. split; [|auto].
  unfold stats_of. rewrite Hc. destruct (rows df) as [|r l]; [congruence|].
  replace (0 <? len (r :: l)) with true
    by (symmetry; apply Z.ltb_lt; unfold len; simpl; lia).
  simpl andb. cbv iota. rewrite Hcol, Em, Ex, En. reflexivity.
Qed.

(** C4. For each of [cpu], [memory] and [disk], and whatever implementation
    of the three reductions meets [reduces]: when the column is absent or
    the table has no row, the triple is [(0.0, 0.0, 0.0)]; otherwise, on a
    float64 column, it is [(m, x, n)] with [m] a mean, [x] a maximum and
    [n] a minimum of the numbers of the column, the missing ones skipped;
    for the readings 90, 50 and 85 it is [(75.0, 90.0, 50.0)]; and the
    dictionary that [stats_for] returns holds that triple under the
    metric's name. *)
Theorem stats_for_metric (df : DataFrame) (k : string) :
  reduces Series_mean Series_max Series_min ->
  In k metrics ->
  (has_column k df = false \/ rows df = [] ->
   statsOf df k = Ok (PrimFloat.zero, PrimFloat.zero, PrimFloat.zero))
  /\ (rows df = [] ->
      exists out, statsFor df = Ok out
                  /\ out !! k = Some (PrimFloat.zero, PrimFloat.zero, PrimFloat.zero))
  /\ (has_column k df = true -> rows df <> [] ->
      forall fs, column df k = map VFloat fs ->
        exists m x n,
          statsOf df k = Ok (m, x, n)
          /\ mean_of (numbers fs) m /\ max_of (numbers fs) x /\ min_of (numbers fs) n)
  /\ (has_column k df = true ->
      column df k = map VFloat [90; 50; 85]%float ->
      statsOf df k = Ok (75, 90, 50)%float)
  /\ (forall out, statsFor df = Ok out ->
                  exists t, statsOf df k = Ok t /\ out !! k = Some t).
Proof.
  intros Hred Hk.
  assert (Hnd : NoDup metrics).
  { apply NoDup_ListNoDup. unfold metrics.
    repeat constructor; simpl; intuition discriminate. }
  split; [apply stats_of_sentinel|]. split; [|split; [|split]].
  - intros Hr.
    assert (E : statsFor df
                = Ok (<["disk" := (PrimFloat.zero, PrimFloat.zero, PrimFloat.zero)]>
                        (<["memory" := (PrimFloat.zero, PrimFloat.zero, PrimFloat.zero)]>
                           (<["cpu" := (PrimFloat.zero, PrimFloat.zero, PrimFloat.zero)]> ∅)))).
    { unfold stats_for, metrics. simpl.
      rewrite !stats_of_sentinel by (right; exact Hr). reflexivity. }
    eexists. split; [exact E|].
    destruct (stats_loop_lookup df metrics ∅ _ k Hnd E Hk) as (t & Ht & ->).
    rewrite stats_of_sentinel in Ht by (right; exact Hr). congruence.
  - intros Hc Hr fs Hcol. exact (stats_of_reduces df k fs Hred Hc Hr Hcol).
  - intros Hc Hcol.
    assert (Hr : rows df <> []).
    { intros E. unfold column in Hcol. rewrite E in Hcol. discriminate. }
    destruct (stats_of_reduces df k _ Hred Hc Hr Hcol) as (m & x & n & E & Hm & Hx & Hn).
    rewrite readings_numbers in Hm, Hx, Hn.
    rewrite (mean_of_readings m Hm), (max_of_readings x Hx), (min_of_readings n Hn) in E.
    exact E.
  - intros out Hout. exact (stats_loop_lookup df metrics ∅ out k Hnd Hout Hk).
Qed.

End PandasFacts.

(** The rows [[{cpu:90}, {cpu:50}, {cpu:85}]] under the reductions from left
    to right: mean 75.0, maximum 90.0 and minimum 50.0 for [cpu], the
    sentinel for [memory], which is absent. *)
Lemma stats_for_metric_witness :
  let df := {| columns := ["cpu"];
               rows := [(0, [VFloat 90]); (1, [VFloat 50]); (2, [VFloat 85])] |} in
  exists out,
    stats_for seq_mean seq_max seq_min (fun _ => None) df = Ok out
    /\ out !! "cpu" = Some (75, 90, 50)%float
    /\ out !! "memory" = Some (0, 0, 0)%float.
Proof.
  intros df.
  destruct (stats_for seq_mean seq_max seq_min (fun _ => None) df) as [out|e] eqn:E;
    [|vm_compute in E; discriminate].
  exists out. split; [reflexivity|].
  destruct (stats_for_metric seq_mean seq_max seq_min (fun _ => None) df "cpu" seq_reduces)
    as (_ & _ & _ & Hex & Hout); [left; reflexivity|].
  destruct (stats_for_metric seq_mean seq_max seq_min (fun _ => None) df "memory" seq_reduces)
    as (Hsent & _ & _ & _ & Hout'); [right; left; reflexivity|].
  destruct (Hout out E) as (t & Ht & ->).
  destruct (Hout' out E) as (t' & Ht' & ->).
  rewrite (Hex eq_refl eq_refl) in Ht.
  rewrite Hsent in Ht' by (left; reflexivity).
  injection Ht as <-. injection Ht' as <-. split; reflexivity.
Defined.

(** ** Alerts *)

Lemma Qgt_bool q t : negb (Qle_bool q t) = true <-> (t < q)%Q.
Proof.
  rewrite negb_true_iff. split.
  - intros H. apply Qnot_le_lt. intros Hle. apply Qle_bool_iff in Hle. congruence.
  - intros H. destruct (Qle_bool q t) eqn:E; [|reflexivity].
    apply Qle_bool_iff in E. destruct (Qlt_not_le _ _ H E).
Qed.

(** [float_gt_int] is the strict order of the numbers, with [+inf] above
    every integer and NaN above none. *)
Lemma float_gt_int_spec f t :
  float_gt_int f t = true <->
  Prim2SF f = S754_infinity false
  \/ exists q, float_Q f = Some q /\ (inject_Z t < q)%Q.
Proof.
  unfold float_gt_int, float_Q.
  destruct (Prim2SF f) as [s|s| |s m e].
  - rewrite Qgt_bool. split.
    + intros H. right. eexists. split; [reflexivity | exact H].
    + intros [H | (q & [= <-] & H)]; [discriminate | exact H].
  - split.
    + intros H. left. destruct s; [discriminate | reflexivity].
    + intros [[= ->] | (q & H & _)]; [reflexivity | discriminate].
  - split; [discriminate|]. intros [H | (q & H & _)]; discriminate.
  - rewrite Qgt_bool. split.
    + intros H. right. eexists. split; [reflexivity | exact H].
    + intros [H | (q & [= <-] & H)]; [discriminate | exact H].
Qed.

Section AlertFacts.

Variable float_of_str : str -> option float.

Local Abbreviation pyFloat := (py_float float_of_str).
Local Abbreviation cellStyle := (cell_style float_of_str).
Local Abbreviation rowStyle := (_style float_of_str).

Lemma cell_style_cases row thr col :
  cellStyle row thr col = alert_css \/ cellStyle row thr col = ""%string.
Proof.
  unfold cell_style. destruct (is_metric col); [|right; reflexivity].
  destruct (exceeds _ _ _ _) as [[|]|e]; simpl; auto.
Qed.

Lemma cell_style_alert row thr col :
  cellStyle row thr col = alert_css <->
  is_metric col = true
  /\ exists v f t, getitem row col = Ok v /\ pyFloat v = Ok f
                   /\ thr !! col = Some t /\ float_gt_int f t = true.
Proof.
  unfold cell_style, exceeds, threshold.
  destruct (is_metric col); [|split; [discriminate | intros [[=] _]]].
  destruct (getitem row col) as [v|e]; simpl;
    [|split; [discriminate | intros (_ & v & f & t & [=] & _)]].
  destruct (py_float float_of_str v) as [f|e] eqn:Ef; simpl;
    [|split; [discriminate | intros (_ & v' & f & t & [= <-] & H & _); congruence]].
  destruct (thr !! col) as [t|]; simpl;
    [|split; [discriminate | intros (_ & v' & f' & t & _ & _ & [=] & _)]].
  destruct (float_gt_int f t) eqn:E; split.
  - intros _. split; [reflexivity|]. exists v, f, t. repeat split; assumption.
  - reflexivity.
  - discriminate.
  - intros (_ & v' & f' & t' & [= <-] & Hf & [= <-] & H). congruence.
Qed.

Lemma float_gt_int_nan f t : is_nan f = true -> float_gt_int f t = false.
Proof.
  unfold is_nan, float_gt_int. destruct (Prim2SF f); try discriminate. reflexivity.
Qed.

(** C5. The style of a cell is the alert style if and only if the column is
    one of [cpu], [memory], [disk], [float] of the cell returns a number,
    the thresholds have an entry for the column and the number is greater
    than the threshold, strictly; in every other case the style is empty:
    a missing cell, a cell that [float] rejects, a column outside the
    three.  [_style] returns, without raising, one style per column of
    the row. *)
Theorem alert_iff_exceeds (row : Series) (thr : gmap string Z) (col : string) :
  (cellStyle row thr col = alert_css <->
   is_metric col = true
   /\ exists v f t, getitem row col = Ok v /\ pyFloat v = Ok f
                    /\ thr !! col = Some t /\ float_gt_int f t = true)
  /\ (cellStyle row thr col <> alert_css -> cellStyle row thr col = ""%string)
  /\ (forall f t, float_gt_int f t = true <->
                  Prim2SF f = S754_infinity false
                  \/ exists q, float_Q f = Some q /\ (inject_Z t < q)%Q)
  /\ (forall v, getitem row col = Ok v -> isna v = true ->
                cellStyle row thr col = ""%string)
  /\ (forall v e, getitem row col = Ok v -> pyFloat v = Raise e ->
                  cellStyle row thr col = ""%string)
  /\ (forall e, getitem row col = Raise e -> cellStyle row thr col = ""%string)
  /\ (is_metric col = false -> cellStyle row thr col = ""%string)
  /\ rowStyle row thr = map (cellStyle row thr) (map fst row)
  /\ length (rowStyle row thr) = length row.
Proof.
  split; [apply cell_style_alert|].
  split; [destruct (cell_style_cases row thr col); tauto|].
  split; [apply float_gt_int_spec|].
  split; [|split; [|split; [|split; [|split]]]].
  - intros v Hv Hna. unfold cell_style, exceeds.
    destruct (is_metric col); [|reflexivity]. rewrite Hv. simpl.
    destruct v as [f|s| | |]; simpl in *; try discriminate; try reflexivity.
    destruct (threshold thr col) as [t|e]; simpl; [|reflexivity].
    rewrite (float_gt_int_nan f t Hna). reflexivity.
  - intros v e Hv He. unfold cell_style, exceeds.
    destruct (is_metric col); [|reflexivity]. rewrite Hv. simpl. rewrite He.
    reflexivity.
  - intros e He. unfold cell_style, exceeds.
    destruct (is_metric col); [|reflexivity]. rewrite He. reflexivity.
  - intros H. unfold cell_style. rewrite H. reflexivity.
  - reflexivity.
  - unfold _style. rewrite !length_map. reflexivity.
Qed.

End AlertFacts.

(** A reading of 80.01 against the threshold 80 alerts; a reading of 85.0
    against 85 does not, nor does a missing reading or a column that is no
    metric. *)
Lemma alert_iff_exceeds_witness :
  let thr : gmap string Z := <["cpu" := 80]> (<["memory" := 85]> (<["disk" := 90]> ∅)) in
  let row : Series :=
    [("cpu", VFloat 0x1.400a3d70a3d71p+6); ("memory", VFloat 85);
     ("disk", VNone); ("host", VFloat 99)]%float in
  _style (fun _ => None) row thr = [alert_css; ""; ""; ""]%string
  /\ cell_style (fun _ => None) row thr "cpu" = alert_css.
Proof.
  intros thr row.
  destruct (alert_iff_exceeds (fun _ => None) row thr "cpu") as (Hiff & _).
  split; [vm_compute; reflexivity|].
  apply Hiff. split; [reflexivity|].
  exists (VFloat 0x1.400a3d70a3d71p+6), 0x1.400a3d70a3d71p+6%float, 80.
  repeat split; vm_compute; reflexivity.
Defined.

(** ** The configuration page *)

Lemma session_defaults :
  thresholds (setdefault_thr new_session) = Some defaults
  /\ defaults !! "cpu" = Some 80 /\ defaults !! "memory" = Some 85
  /\ defaults !! "disk" = Some 90.
Proof. repeat split; vm_compute; reflexivity. Qed.

Lemma setdefault_keeps s t : thr s = Some t -> setdefault_thr s = s.
Proof. unfold setdefault_thr. intros ->. reflexivity. Qed.

(** Pressing Save stores the reference that the session already holds:
    the thresholds after a run of the page are the same with and without
    it. *)
Lemma page_config_save_irrelevant s c m d :
  page_config s {| cpu_slider := c; memory_slider := m; disk_slider := d; save := true |}
  = page_config s {| cpu_slider := c; memory_slider := m; disk_slider := d; save := false |}.
Proof.
  unfold page_config. destruct (thr s) as [t|] eqn:Et; [|reflexivity].
  cbn [cpu_slider memory_slider disk_slider save].
  unfold slide, dict_set.
  destruct (dict_get s t "cpu") as [x|]; [|reflexivity]. cbn [bind thr heap].
  destruct (dict_get _ t "memory") as [y|]; [|reflexivity]. cbn [bind thr heap].
  destruct (dict_get _ t "disk") as [z|]; [|reflexivity]. cbn [bind thr heap].
  rewrite Et. reflexivity.
Qed.

(** A slider that is left alone writes back the value it read. *)
Lemma slide_untouched s t k v :
  dict_get s t k = Ok v -> slide s t k None = Ok s.
Proof.
  unfold slide, dict_get, dict_set. intros H.
  destruct (heap s !! t) as [d|] eqn:Ed; [|discriminate].
  destruct (d !! k) as [x|] eqn:Ex; [|discriminate]. injection H as ->.
  simpl. f_equal. destruct s as [h r]. simpl in *. f_equal.
  apply alter_id. intros d' Hd'. rewrite Ed in Hd'. injection Hd' as <-.
  apply insert_id, Ex.
Qed.

(** C10, on the code.  The session starts at 80/85/90; a run of the
    configuration page with the CPU slider at 50 and the Save button not
    pressed leaves 50 in the thresholds that the session holds: the page
    writes each slider value into the dictionary the session refers to. *)
Theorem page_config_writes_without_save :
  let s0 := setdefault_thr new_session in
  let ui := {| cpu_slider := Some 50; memory_slider := None;
               disk_slider := None; save := false |} in
  thresholds s0 = Some defaults
  /\ exists s1, page_config s0 ui = Ok s1
                /\ thresholds s1 = Some (<["cpu" := 50]> defaults)
                /\ thresholds s1 <> thresholds s0.
Proof.
  intros s0 ui. split; [vm_compute; reflexivity|].
  eexists. split; [vm_compute; reflexivity|]. split; [vm_compute; reflexivity|].
  intros H. apply (f_equal (fun o => match o with Some d => d !! "cpu" | None => None end)) in H.
  vm_compute in H. discriminate.
Qed.

(** ** What raises and what does not *)

Lemma latin1_lit s : latin1 (lit s).
Proof.
  unfold latin1, lit. apply List.Forall_forall. intros c Hc.
  apply in_map_iff in Hc as (b & <- & _).
  pose proof (Byte.to_N_bounded b). lia.
Qed.

Lemma latin1_app a b : latin1 (a ++ b) <-> latin1 a /\ latin1 b.
Proof. apply List.Forall_app. Qed.

Lemma latin1_occurs s t : occurs s t -> latin1 t -> latin1 s.
Proof.
  intros (pos & pre & post & -> & _) H.
  apply latin1_app in H as [_ H]. apply latin1_app in H as [H _]. exact H.
Qed.

Lemma latin1_esc_char c : latin1 (esc_char c) <-> (c < 256)%N.
Proof.
  unfold esc_char, bslash, lparen, rparen.
  destruct (N.eqb_spec c 92) as [->|H1]; [|destruct (N.eqb_spec c 40) as [->|H2];
    [|destruct (N.eqb_spec c 41) as [->|H3]]].
  - split; [reflexivity|]. intros _. repeat constructor.
  - split; [reflexivity|]. intros _. repeat constructor.
  - split; [reflexivity|]. intros _. repeat constructor.
  - split; [intros H; inversion H; assumption | intros H; repeat constructor; exact H].
Qed.

Lemma latin1_escaped l : latin1 (escaped l) <-> latin1 l.
Proof.
  unfold escaped. induction l as [|c l IH]; [reflexivity|].
  cbn [flat_map]. rewrite latin1_app, IH, latin1_esc_char.
  split; [intros [H1 H2]; constructor; assumption | intros H; inversion H; auto].
Qed.

Lemma latin1_show_text i l : latin1 (show_text i l) <-> latin1 l.
Proof.
  unfold show_text, str_of_int. rewrite !latin1_app, latin1_escaped.
  pose proof latin1_lit. intuition.
Qed.

Lemma latin1_join sep xs :
  latin1 sep -> Forall latin1 xs -> latin1 (join sep xs).
Proof.
  intros Hs H. induction H as [|x xs Hx _ IH]; [constructor|].
  destruct xs as [|y xs]; [exact Hx|].
  change (join sep (x :: y :: xs)) with (x ++ sep ++ join sep (y :: xs)).
  rewrite !latin1_app. auto.
Qed.

Lemma latin1_text_ops k lines :
  Forall latin1 lines -> Forall latin1 (map text_op (enumerate_from k lines)).
Proof.
  intros H. revert k. induction H as [|l lines Hl _ IH]; intros k; [constructor|].
  cbn [enumerate_from map]. constructor; [|apply IH].
  unfold text_op, str_of_int. rewrite esc_escaped, !latin1_app, latin1_escaped.
  pose proof latin1_lit. intuition.
Qed.

Lemma latin1_stream lines : latin1 (stream lines) <-> Forall latin1 lines.
Proof.
  split.
  - intros H. apply List.Forall_forall. intros l Hl.
    apply In_nth_error in Hl as [i Hi].
    apply (latin1_show_text i). exact (latin1_occurs _ _ (stream_shows _ _ _ Hi) H).
  - intros H. unfold stream. rewrite !latin1_app.
    pose proof latin1_lit. repeat split; auto.
    apply latin1_join; [auto|]. apply latin1_text_ops, H.
Qed.

(** [pdf_bytes] returns exactly on Latin-1 lines. *)
Lemma pdf_bytes_total lines :
  (Forall latin1 lines -> exists out, pdf_bytes lines = Ok out)
  /\ (~ Forall latin1 lines -> pdf_bytes lines = Raise UnicodeEncodeError).
Proof.
  rewrite pdf_bytes_document. split; intros H.
  - apply latin1_stream, encode_latin1_total in H as [sb ->]. simpl. eauto.
  - rewrite encode_latin1_raises; [reflexivity|]. rewrite latin1_stream. exact H.
Qed.

Lemma mapM_total {A B} (f : A -> result B) l :
  (forall a, In a l -> exists b, f a = Ok b) -> exists bs, mapM f l = Ok bs.
Proof.
  induction l as [|a l IH]; intros H; simpl; [eauto|].
  destruct (H a) as [b ->]; [left; reflexivity|].
  destruct IH as [bs ->]; [intros; apply H; right; assumption|].
  simpl. eauto.
Qed.

Lemma between_total df lo hi :
  timestamps_parsed df -> exists f, between (dropna "timestamp" df) lo hi = Ok f.
Proof.
  intros Hp. unfold between.
  destruct (mapM_total
              (fun r => let* t := ts_of (cell (dropna "timestamp" df) "timestamp" r) in
                        Ok ((lo <=? t) && match hi with Some h => t <=? h | None => true end))
              (rows (dropna "timestamp" df))) as [mask ->]; [|simpl; eauto].
  intros r Hin. simpl in Hin. apply filter_In in Hin as [Hin Hv].
  change (cell (dropna "timestamp" df) "timestamp" r) with (cell df "timestamp" r).
  unfold timestamps_parsed in Hp. rewrite List.Forall_forall in Hp.
  rewrite (valid_time _ _ (Hp r Hin) Hv). simpl. eauto.
Qed.

(** On a loaded table the time filter returns, whatever the widgets say. *)
Lemma time_filter_total df ui :
  timestamps_parsed df -> exists res, time_filter_ui df ui = Ok res.
Proof.
  intros Hp. unfold time_filter_ui.
  destruct (has_column "timestamp" df); simpl negb; cbv iota; [|eauto].
  destruct (empty (dropna "timestamp" df)) eqn:He; [eauto|].
  destruct (widget (choice_pick ui) Days14).
  - eauto.
  - destruct (between_total df (now ui - Timedelta_days (days_of Days7)) None Hp) as [f ->].
    simpl. eauto.
  - destruct (between_total df (now ui - Timedelta_days (days_of Days14)) None Hp) as [f ->].
    simpl. eauto.
  - destruct (between_total df (now ui - Timedelta_days (days_of Days30)) None Hp) as [f ->].
    simpl. eauto.
  - destruct (between_total df (now ui - Timedelta_days (days_of Days90)) None Hp) as [f ->].
    simpl. eauto.
  - destruct (custom_bounds df Hp He) as (tmin & tmax & -> & ->). simpl bind.
    match goal with |- context [between _ ?lo ?hi] =>
      destruct (between_total df lo hi Hp) as [f ->] end.
    simpl. eauto.
Qed.

Lemma time_filter_no_column df ui :
  has_column "timestamp" df = false -> time_filter_ui df ui = Ok (df, lit "All").
Proof. intros H. unfold time_filter_ui. rewrite H. reflexivity. Qed.

Section ReductionsReturn.

Variables Series_mean Series_max Series_min : list value -> result value.
Variable float_of_str : str -> option float.

Lemma stats_of_total df k :
  reduces Series_mean Series_max Series_min ->
  In k metrics -> metrics_float df ->
  exists t, stats_of Series_mean Series_max Series_min float_of_str df k = Ok t.
Proof.
  intros Hred Hk Hf.
  destruct (has_column k df) eqn:Hc;
    [|rewrite stats_of_sentinel by (left; exact Hc); eauto].
  destruct (rows df) as [|r l] eqn:Hr;
    [rewrite stats_of_sentinel by (right; exact Hr); eauto|].
  destruct (Hf k Hk Hc) as [fs Hfs].
  destruct (stats_of_reduces Series_mean Series_max Series_min float_of_str df k fs
              Hred Hc ltac:(congruence) Hfs) as (m & x & n & E & _).
  eauto.
Qed.

(** With reductions that meet [reduces], [stats_for] returns on every
    table whose metric columns are float64 columns. *)
Lemma stats_for_total df :
  reduces Series_mean Series_max Series_min ->
  metrics_float df ->
  exists out, stats_for Series_mean Series_max Series_min float_of_str df = Ok out.
Proof.
  intros Hred Hf. unfold stats_for, metrics. cbn [stats_loop].
  destruct (stats_of_total df "cpu" Hred) as [t1 ->]; [simpl; auto | exact Hf|].
  destruct (stats_of_total df "memory" Hred) as [t2 ->]; [simpl; auto | exact Hf|].
  destruct (stats_of_total df "disk" Hred) as [t3 ->]; [simpl; auto | exact Hf|].
  simpl. eauto.
Qed.

(** What a reduction raises on a metric column, [stats_for] raises: it has
    no handler. *)
Lemma stats_of_raises df k e :
  has_column k df = true -> rows df <> [] ->
  Series_mean (column df k) = Raise e ->
  stats_of Series_mean Series_max Series_min float_of_str df k = Raise e.
Proof.
  intros Hc Hr Hm. unfold stats_of. rewrite Hc.
  destruct (rows df) as [|r l]; [congruence|].
  replace (0 <? len (r :: l)) with true
    by (symmetry; apply Z.ltb_lt; unfold len; simpl; lia).
  simpl andb. cbv iota. rewrite Hm. reflexivity.
Qed.

Lemma stats_loop_raises df ks out k e :
  In k ks ->
  stats_of Series_mean Series_max Series_min float_of_str df k = Raise e ->
  exists e', stats_loop Series_mean Series_max Series_min float_of_str df ks out = Raise e'.
Proof.
  revert out. induction ks as [|k' ks IH]; intros out Hin Hk; [destruct Hin|].
  cbn [stats_loop].
  destruct (stats_of Series_mean Series_max Series_min float_of_str df k') as [t|e0] eqn:E.
  - cbn [bind]. destruct Hin as [-> | Hin]; [congruence|]. exact (IH _ Hin Hk).
  - cbn [bind]. eauto.
Qed.

Lemma stats_for_raises df k e :
  In k metrics -> has_column k df = true -> rows df <> [] ->
  Series_mean (column df k) = Raise e ->
  exists e', stats_for Series_mean Series_max Series_min float_of_str df = Raise e'.
Proof.
  intros Hk Hc Hr Hm. unfold stats_for.
  exact (stats_loop_raises df metrics ∅ k e Hk (stats_of_raises df k e Hc Hr Hm)).
Qed.

End ReductionsReturn.

(** An exception inside the alert decision is caught there: the cell gets
    the empty style. *)
Lemma cell_style_absorbs fos row thr col e :
  exceeds fos row thr col = Raise e -> cell_style fos row thr col = ""%string.
Proof.
  intros H. unfold cell_style. rewrite H. destruct (is_metric col); reflexivity.
Qed.

Lemma cell_style_decides fos row thr col b :
  is_metric col = true ->
  exceeds fos row thr col = Ok b ->
  cell_style fos row thr col = if b then alert_css else ""%string.
Proof. intros Hm H. unfold cell_style. rewrite Hm, H. reflexivity. Qed.

Lemma is_unique_NoDup_string l : is_unique String.eqb l = true <-> List.NoDup l.
Proof.
  induction l as [|a l IH]; simpl; [split; [constructor | reflexivity]|].
  rewrite andb_true_iff, negb_true_iff, IH. split.
  - intros [Ha Hl]. constructor; [|exact Hl]. intros Hin.
    assert (E : existsb (String.eqb a) l = true)
      by (apply existsb_exists; exists a; split; [exact Hin | apply String.eqb_refl]).
    congruence.
  - intros H. inversion H as [|? ? Ha Hl]; subst. split; [|exact Hl].
    destruct (existsb (String.eqb a) l) eqn:E; [|reflexivity].
    apply existsb_exists in E as (x & Hx & Hax). apply String.eqb_eq in Hax. subst. tauto.
Qed.

Lemma is_unique_NoDup_Z l : is_unique Z.eqb l = true <-> List.NoDup l.
Proof.
  induction l as [|a l IH]; simpl; [split; [constructor | reflexivity]|].
  rewrite andb_true_iff, negb_true_iff, IH. split.
  - intros [Ha Hl]. constructor; [|exact Hl]. intros Hin.
    assert (E : existsb (Z.eqb a) l = true)
      by (apply existsb_exists; exists a; split; [exact Hin | apply Z.eqb_refl]).
    congruence.
  - intros H. inversion H as [|? ? Ha Hl]; subst. split; [|exact Hl].
    destruct (existsb (Z.eqb a) l) eqn:E; [|reflexivity].
    apply existsb_exists in E as (x & Hx & Hax). apply Z.eqb_eq in Hax. subst. tauto.
Qed.

(** The styles of a table whose labels are distinct. *)
Lemma highlight_alerts_unique fos df thr :
  List.NoDup (map fst (rows df)) -> List.NoDup (columns df) ->
  highlight_alerts fos df thr
  = Ok (map (fun r => _style fos (row_of df r) thr) (rows df)).
Proof.
  intros Hi Hc. unfold highlight_alerts.
  rewrite (proj2 (is_unique_NoDup_Z _) Hi), (proj2 (is_unique_NoDup_string _) Hc).
  reflexivity.
Qed.

Lemma highlight_alerts_repeated fos df thr :
  ~ (List.NoDup (map fst (rows df)) /\ List.NoDup (columns df)) ->
  highlight_alerts fos df thr = Raise KeyError.
Proof.
  intros H. unfold highlight_alerts.
  destruct (is_unique Z.eqb (map fst (rows df))) eqn:Ei; [|reflexivity].
  destruct (is_unique String.eqb (columns df)) eqn:Ec; [|reflexivity].
  exfalso. apply H. split; [apply is_unique_NoDup_Z, Ei | apply is_unique_NoDup_string, Ec].
Qed.

Lemma utf8_char_total c : scalar c -> exists b, utf8_char c = Ok b.
Proof.
  unfold scalar, utf8_char. intros H.
  destruct (N.ltb_spec c 0x80); [eauto|].
  destruct (N.ltb_spec c 0x800); [eauto|].
  destruct (N.ltb_spec c 0x10000).
  - destruct (N.leb_spec 0xD800 c); [|simpl; eauto].
    destruct (N.leb_spec c 0xDFFF); [lia | simpl; eauto].
  - destruct (N.ltb_spec c 0x110000); [eauto | lia].
Qed.

Lemma utf8_char_surrogate c : surrogate c -> utf8_char c = Raise UnicodeEncodeError.
Proof.
  unfold surrogate, utf8_char. intros H.
  destruct (N.ltb_spec c 0x80); [lia|].
  destruct (N.ltb_spec c 0x800); [lia|].
  destruct (N.ltb_spec c 0x10000); [|lia].
  destruct (N.leb_spec 0xD800 c); [|lia].
  destruct (N.leb_spec c 0xDFFF); [reflexivity | lia].
Qed.

Lemma encode_utf8_total s : Forall scalar s -> exists b, encode_utf8 s = Ok b.
Proof.
  induction 1 as [|c s Hc _ [bs IH]]; simpl; [eauto|].
  destruct (utf8_char_total c Hc) as [b ->]. rewrite IH. simpl. eauto.
Qed.

(** Python text holds code points up to U+10FFFF, and those that are not
    scalar values are the surrogates: encoding stops at the first. *)
Lemma encode_utf8_raises s :
  Forall (fun c => (c < 0x110000)%N) s -> ~ Forall scalar s ->
  encode_utf8 s = Raise UnicodeEncodeError.
Proof.
  induction 1 as [|c s Hc _ IH]; intros Hn; [exfalso; apply Hn; constructor|].
  cbn [encode_utf8].
  assert (D : scalar c \/ surrogate c) by (unfold scalar, surrogate; lia).
  destruct D as [Hs | Hs].
  - destruct (utf8_char_total c Hs) as [b ->]. cbn [bind].
    rewrite IH; [reflexivity|]. intros H. apply Hn. constructor; assumption.
  - rewrite (utf8_char_surrogate c Hs). reflexivity.
Qed.





(* ===================================================================== *)
(** * Part III: further properties of the code                            *)
(* ===================================================================== *)

(** ** The PDF generator, continued *)

Lemma eol_id l : ~ In CR l -> eol l = l.
Proof.
  induction l as [|c l IH]; intros H; [reflexivity|]. cbn [eol].
  destruct (N.eqb_spec c CR) as [->|_]; [exfalso; apply H; left; reflexivity|].
  rewrite IH; [reflexivity|]. intros Hin. apply H. right. exact Hin.
Qed.

Lemma unescape_esc l : unescape (esc l) = l.
Proof.
  induction l as [|c l IH]; [reflexivity|].
  rewrite esc_cons. unfold esc_char.
  destruct (N.eqb_spec c bslash) as [->|H1];
    [cbn [app unescape]; rewrite N.eqb_refl, IH; reflexivity|].
  destruct (N.eqb_spec c lparen) as [->|H2];
    [cbn [app unescape]; rewrite N.eqb_refl, IH; reflexivity|].
  destruct (N.eqb_spec c rparen) as [->|H3];
    [cbn [app unescape]; rewrite N.eqb_refl, IH; reflexivity|].
  apply N.eqb_neq in H1. cbn [app unescape]. rewrite H1, IH. reflexivity.
Qed.

(** The first character of an escaped text that is followed by a closing
    parenthesis is no line feed, unless the text starts with one. *)
Lemma esc_head d l rest :
  d <> LF -> exists h t, esc (d :: l) ++ rparen :: rest = h :: t /\ (h =? LF)%N = false.
Proof.
  intros Hd. rewrite esc_cons. unfold esc_char.
  destruct (N.eqb d bslash); destruct (N.eqb d lparen); destruct (N.eqb d rparen);
    cbn [app]; eexists _, _; (split; [reflexivity|]);
    first [reflexivity | apply N.eqb_neq, Hd].
Qed.

Lemma read_literal_esc n : forall l rest,
  (length l <= n)%nat ->
  read_literal 0 (esc l ++ rparen :: rest) = Some (eol l, rest).
Proof.
  induction n as [|n IH]; intros l rest Hn.
  - destruct l; [reflexivity | simpl in Hn; lia].
  - destruct l as [|c l]; [reflexivity|]. simpl in Hn.
    assert (IHl : read_literal 0 (esc l ++ rparen :: rest) = Some (eol l, rest))
      by (apply IH; lia).
    rewrite esc_cons, <- app_assoc. unfold esc_char.
    destruct (N.eqb_spec c bslash) as [->|H1];
      [cbn [app read_literal eol]; rewrite N.eqb_refl; cbn; rewrite IHl; reflexivity|].
    destruct (N.eqb_spec c lparen) as [->|H2];
      [cbn [app read_literal eol]; rewrite N.eqb_refl; cbn; rewrite IHl; reflexivity|].
    destruct (N.eqb_spec c rparen) as [->|H3];
      [cbn [app read_literal eol]; rewrite N.eqb_refl; cbn; rewrite IHl; reflexivity|].
    apply N.eqb_neq in H1, H2, H3.
    cbn [app read_literal eol]. rewrite H1, H2, H3.
    destruct (N.eqb_spec c CR) as [->|H4]; [|rewrite IHl; reflexivity].
    destruct l as [|d l].
    + reflexivity.
    + destruct (N.eqb_spec d LF) as [->|Hd].
      * change (esc (LF :: l) ++ rparen :: rest)
          with (LF :: (esc l ++ rparen :: rest)).
        cbn [N.eqb LF Pos.eqb]. rewrite IH by (simpl in Hn; lia). reflexivity.
      * destruct (esc_head d l rest Hd) as (h & t & E & Hh).
        rewrite E in IHl |- *. rewrite Hh, IHl. reflexivity.
Qed.

(** X1. What [esc] writes between the parentheses of a show-text operator
    is read back by a PDF reader as the line itself, up to its ends of
    line, which the reader turns into line feeds, and the reader stops at
    the closing parenthesis that [pdf_bytes] wrote: no character of the
    line can end the string early or swallow the parenthesis.  A line
    without a carriage return is read back as it is.  And [esc] loses
    nothing: two lines with the same escaped text are the same. *)
Theorem esc_read_back (l rest : str) :
  read_literal 0 (esc l ++ rparen :: rest) = Some (eol l, rest)
  /\ (~ In CR l -> read_literal 0 (esc l ++ rparen :: rest) = Some (l, rest))
  /\ (forall l', esc l = esc l' -> l = l').
Proof.
  assert (H : read_literal 0 (esc l ++ rparen :: rest) = Some (eol l, rest))
    by (apply (read_literal_esc (length l)); lia).
  split; [exact H|]. split.
  - intros Hcr. rewrite H, (eol_id l Hcr). reflexivity.
  - intros l' E. rewrite <- (unescape_esc l), <- (unescape_esc l'), E. reflexivity.
Qed.

(** The line [a(b] followed by a carriage return and a line feed: the
    reader gets [a(b] and one line feed, and stops at the parenthesis. *)
Lemma esc_read_back_witness :
  let l := lit "a(b" ++ [CR; LF] in
  esc l = lit "a\(b" ++ [CR; LF]
  /\ read_literal 0 (esc l ++ rparen :: lit " Tj") = Some (lit "a(b" ++ [LF], lit " Tj")
  /\ read_literal 0 (esc (lit "a(b") ++ rparen :: lit " Tj") = Some (lit "a(b", lit " Tj").
Proof.
  intros l. split; [reflexivity|]. split.
  - exact (proj1 (esc_read_back l (lit " Tj"))).
  - apply (proj1 (proj2 (esc_read_back (lit "a(b") (lit " Tj")))).
    vm_compute. intros [H | [H | [H | []]]]; discriminate H.
Defined.

Lemma encode_latin1_length s b : encode_latin1 s = Ok b -> len b = len s.
Proof.
  revert b. induction s as [|c s IH]; intros b; simpl.
  - intros [= <-]. reflexivity.
  - destruct (Byte.of_N c); [|discriminate].
    intros H. apply bind_Ok in H as (bs & Hs & [= <-]).
    specialize (IH _ Hs). unfold len in *. simpl. lia.
Qed.

(** X2. Whenever [pdf_bytes] returns, object 5 starts at byte 311 and is
    the dictionary [<< /Length n >>] followed by the stream, where [n] is
    written in decimal, reads back as the number of bytes between
    [stream] and [endstream], and is the number of characters of the
    content stream: one byte per character. *)
Theorem pdf_bytes_stream_length (lines : list str) (out : bytes) :
  pdf_bytes lines = Ok out ->
  exists sb,
    encode_latin1 (stream lines) = Ok sb
    /\ len sb = len (stream lines)
    /\ occurs_at (blit "5 0 obj << /Length " ++ bytes_of_int (len sb)
                  ++ blit " >> stream" ++ nl ++ sb ++ nl
                  ++ blit "endstream endobj" ++ nl) 311 out
    /\ int_of_bytes (bytes_of_int (len sb)) = Some (len sb).
Proof.
  intros Hout. rewrite pdf_bytes_document in Hout.
  apply bind_Ok in Hout as (sb & Hsb & [= <-]).
  exists sb. split; [exact Hsb|]. split; [exact (encode_latin1_length _ _ Hsb)|].
  split; [|apply int_of_bytes_of_int].
  destruct (objects_placed sb) as (_ & _ & _ & _ & P5).
  unfold document. cbv zeta. apply occurs_at_extend.
  unfold obj5 in P5. rewrite <- !app_assoc in P5. exact P5.
Qed.

(** The two-character stream of an empty report still declares its length. *)
Lemma pdf_bytes_stream_length_witness :
  exists out,
    pdf_bytes [lit "ok"] = Ok out
    /\ occurs_at (blit "5 0 obj << /Length 41 >> stream" ++ nl
                  ++ blit "BT /F1 12 Tf 1 0 0 1 50 760 Tm (ok) Tj ET" ++ nl
                  ++ blit "endstream endobj" ++ nl) 311 out.
Proof.
  assert (E : pdf_bytes [lit "ok"]
              = Ok (document (blit "BT /F1 12 Tf 1 0 0 1 50 760 Tm (ok) Tj ET")))
    by (vm_compute; reflexivity).
  destruct (pdf_bytes_stream_length _ _ E) as (sb & Hsb & _ & Hocc & _).
  eexists. split; [exact E|].
  vm_compute in Hsb. injection Hsb as <-. exact Hocc.
Defined.

(** ** The time filter, continued *)

Lemma civil_round_trip z : days_from_civil (civil_from_days z) = z.
Proof.
  unfold days_from_civil, civil_from_days. cbn [year month day].
  set (z' := z + 719468).
  set (era := z' / 146097).
  set (doe := z' - era * 146097).
  assert (Hdoe : 0 <= doe < 146097).
  { subst doe era. pose proof (Z.div_mod z' 146097 ltac:(lia)).
    pose proof (Z.mod_pos_bound z' 146097 ltac:(lia)). lia. }
  assert (Hz : z' = era * 146097 + doe) by (subst doe; lia).
  clearbody doe era.
  set (yoe := (doe - doe / 1460 + doe / 36524 - doe / 146096) / 365).
  assert (Hyoe : 0 <= yoe <= 399)
    by (subst yoe; Z.to_euclidean_division_equations; lia).
  set (doy := doe - (365 * yoe + yoe / 4 - yoe / 100)).
  assert (Hdoy : 0 <= doy <= 365)
    by (subst doy yoe; Z.to_euclidean_division_equations; lia).
  set (mp := (5 * doy + 2) / 153).
  assert (Hmp : 0 <= mp <= 11)
    by (subst mp; Z.to_euclidean_division_equations; lia).
  clearbody mp.
  set (m := if mp <? 10 then mp + 3 else mp - 9).
  assert (Hm : (m <=? 2) = negb (mp <? 10) /\ (m >? 2) = (mp <? 10)).
  { subst m. rewrite Z.gtb_ltb.
    destruct (Z.ltb_spec mp 10); cbn [negb];
      (split; [destruct (Z.leb_spec (mp + 3) 2) || destruct (Z.leb_spec (mp - 9) 2)
              | destruct (Z.ltb_spec 2 (mp + 3)) || destruct (Z.ltb_spec 2 (mp - 9))]);
      (reflexivity || lia). }
  destruct Hm as [Hle Hgt]. rewrite Hle, Hgt.
  assert (E2 : (yoe + era * 400) / 400 = era)
    by (symmetry; apply (Z.div_unique _ 400 era yoe); lia).
  subst m. destruct (Z.ltb_spec mp 10); cbn [negb].
  - replace (yoe + era * 400 + 0) with (yoe + era * 400) by lia. rewrite E2.
    replace (yoe + era * 400 - era * 400) with yoe by lia.
    replace (mp + 3 - 3) with mp by lia. subst doy z'. lia.
  - replace (yoe + era * 400 + 1 - 1) with (yoe + era * 400) by lia. rewrite E2.
    replace (yoe + era * 400 - era * 400) with yoe by lia.
    replace (mp - 9 + 9) with mp by lia. subst doy z'. lia.
Qed.

Lemma date_of_Timestamp_le t : Timestamp (date_of t) <= t < Timestamp (date_of t) + Timedelta_days 1.
Proof.
  unfold Timestamp, date_of. rewrite civil_round_trip.
  unfold Timedelta_days.
  replace (1 * 86400 * 1000000000) with 86400000000000 by reflexivity.
  pose proof (Z.div_mod t 86400000000000 ltac:(lia)).
  pose proof (Z.mod_pos_bound t 86400000000000 ltac:(lia)). lia.
Qed.

Lemma fold_min_le l a : forall x, In x (a :: l) -> fold_left Z.min l a <= x.
Proof.
  revert a. induction l as [|b l IH]; intros a x Hx; simpl.
  - destruct Hx as [<- | []]. lia.
  - destruct Hx as [<- | [<- | Hx]].
    + specialize (IH (Z.min a b) (Z.min a b) (or_introl eq_refl)). lia.
    + specialize (IH (Z.min a b) (Z.min a b) (or_introl eq_refl)). lia.
    + apply IH. right. exact Hx.
Qed.

Lemma fold_max_ge l a : forall x, In x (a :: l) -> x <= fold_left Z.max l a.
Proof.
  revert a. induction l as [|b l IH]; intros a x Hx; simpl.
  - destruct Hx as [<- | []]. lia.
  - destruct Hx as [<- | [<- | Hx]].
    + specialize (IH (Z.max a b) (Z.max a b) (or_introl eq_refl)). lia.
    + specialize (IH (Z.max a b) (Z.max a b) (or_introl eq_refl)). lia.
    + apply IH. right. exact Hx.
Qed.

Lemma select_sublist {A} (l : list A) mask : sublist (select l mask) l.
Proof.
  revert mask. induction l as [|a l IH]; intros [|b mask]; simpl;
    try apply sublist_nil_l.
  destruct b; [apply sublist_skip | apply sublist_cons]; apply IH.
Qed.

Lemma between_frame df lo hi f :
  between df lo hi = Ok f -> columns f = columns df /\ sublist (rows f) (rows df).
Proof.
  unfold between. intros H. apply bind_Ok in H as (mask & _ & [= <-]).
  split; [reflexivity | apply select_sublist].
Qed.

Lemma between_since df lo :
  timestamps_parsed df ->
  between (dropna "timestamp" df) lo None
  = Ok {| columns := columns df; rows := List.filter (since df lo) (rows df) |}.
Proof.
  intros Hp. unfold between.
  rewrite (mapM_Ok_map _ (fun r => (lo <=? ts_or_zero df r) && true)).
  - simpl bind. unfold loc. f_equal. f_equal. rewrite select_map. simpl rows.
    rewrite filter_twice. apply filter_ext_in. intros r Hin.
    unfold timestamps_parsed in Hp. rewrite List.Forall_forall in Hp.
    specialize (Hp r Hin). unfold since, ts_or_zero.
    destruct (cell df "timestamp" r); simpl in *; try easy.
    rewrite andb_true_r. reflexivity.
  - intros r Hin. simpl in Hin. apply filter_In in Hin as [Hin Hv].
    change (cell (dropna "timestamp" df) "timestamp" r) with (cell df "timestamp" r).
    unfold timestamps_parsed in Hp. rewrite List.Forall_forall in Hp.
    rewrite (valid_time _ _ (Hp r Hin) Hv). reflexivity.
Qed.

Lemma latin1_bytes (b : bytes) : latin1 (map Byte.to_N b).
Proof.
  apply List.Forall_forall. intros c Hc. apply in_map_iff in Hc as (x & <- & _).
  pose proof (Byte.to_N_bounded x). lia.
Qed.

(** The table and the label that the filter returns. *)
Lemma time_filter_ui_frame (df : DataFrame) (ui : widgets) (f : DataFrame) (label : str) :
  time_filter_ui df ui = Ok (f, label) ->
  columns f = columns df /\ sublist (rows f) (rows df) /\ latin1 label.
Proof.
  unfold time_filter_ui.
  destruct (has_column "timestamp" df); simpl negb; cbv iota;
    [|intros [= <- <-]; repeat split; [reflexivity | apply latin1_lit]].
  destruct (empty (dropna "timestamp" df));
    [intros [= <- <-]; repeat split; [reflexivity | apply latin1_lit]|].
  assert (Hsub : sublist (rows (dropna "timestamp" df)) (rows df))
    by apply filter_sublist.
  assert (Hdays : forall c lo,
             (let* g := between (dropna "timestamp" df) lo None in
              Ok (g, lit "Last " ++ str_of_int (days_of c) ++ lit " days")) = Ok (f, label) ->
             columns f = columns df /\ sublist (rows f) (rows df) /\ latin1 label).
  { intros c lo H. apply bind_Ok in H as (g & Hg & H).
    assert (Hf : g = f) by congruence.
    assert (Hl : label = lit "Last " ++ str_of_int (days_of c) ++ lit " days")
      by congruence.
    subst g. clear H. apply between_frame in Hg as [Hc Hr]. repeat split.
    - exact Hc.
    - etransitivity; [exact Hr | exact Hsub].
    - rewrite Hl. unfold str_of_int. rewrite !latin1_app.
      repeat split; apply latin1_lit. }
  destruct (widget (choice_pick ui) Days14); try (apply Hdays).
  - intros [= <- <-]. repeat split; [exact Hsub | apply latin1_lit].
  - intros H. apply bind_Ok in H as (tmin & _ & H).
    apply bind_Ok in H as (tmax & _ & H). cbv zeta in H.
    apply bind_Ok in H as (g & Hg & H).
    assert (Hf : g = f) by congruence.
    match type of H with Ok (_, ?e) = _ => assert (Hl : label = e) by congruence end.
    subst g. clear H. apply between_frame in Hg as [Hc Hr]. repeat split.
    + exact Hc.
    + etransitivity; [exact Hr | exact Hsub].
    + rewrite Hl. unfold isoformat. rewrite !latin1_app.
      repeat split; (apply latin1_lit || apply latin1_bytes).
Qed.

(** X3. Whatever the widgets say, a table that the filter returns has the
    columns of the table it was given and a selection of its rows, in the
    same order and none twice; and the label it returns is Latin-1 text,
    so that [pdf_bytes] can print it. *)
Theorem time_filter_frame (df : DataFrame) (ui : widgets) (f : DataFrame) (label : str) :
  time_filter_ui df ui = Ok (f, label) ->
  columns f = columns df /\ sublist (rows f) (rows df) /\ latin1 label.
Proof. exact (time_filter_ui_frame df ui f label). Qed.

(** The 7-day window on three rows. *)
Lemma time_filter_frame_witness :
  let df := {| columns := ["timestamp"; "cpu"];
               rows := [(0, [VTime 0; VFloat 10]); (1, [VNaT; VFloat 20]);
                        (2, [VTime (Timedelta_days 9); VFloat 30])] |} in
  let ui := {| choice_pick := Some Days7; start_pick := None; end_pick := None;
               now := Timedelta_days 10 |} in
  time_filter_ui df ui
  = Ok ({| columns := ["timestamp"; "cpu"];
           rows := [(2, [VTime (Timedelta_days 9); VFloat 30])] |}, lit "Last 7 days")
  /\ sublist [(2, [VTime (Timedelta_days 9); VFloat 30])] (rows df).
Proof.
  intros df ui.
  assert (E : time_filter_ui df ui
              = Ok ({| columns := ["timestamp"; "cpu"];
                       rows := [(2, [VTime (Timedelta_days 9); VFloat 30])] |},
                    lit "Last 7 days")) by reflexivity.
  split; [exact E|].
  exact (proj1 (proj2 (time_filter_frame df ui _ _ E))).
Defined.

(** X4. With one of the day options, or with the select box untouched
    (which means 14 days), on a loaded table that has a valid timestamp,
    the filter keeps exactly the rows whose timestamp is not before the
    clock minus that many days, under the label [Last n days]: a row at
    the cutoff itself is kept, and every row with a timestamp that is
    left out is older than the cutoff. *)
Theorem time_filter_days (df : DataFrame) (ui : widgets) :
  has_column "timestamp" df = true ->
  timestamps_parsed df ->
  (exists r, In r (rows df) /\ valid_ts df r = true) ->
  widget (choice_pick ui) Days14 <> All ->
  widget (choice_pick ui) Days14 <> Custom ->
  let n := days_of (widget (choice_pick ui) Days14) in
  let cutoff := now ui - Timedelta_days n in
  In n [7; 14; 30; 90]
  /\ exists f,
       time_filter_ui df ui = Ok (f, lit "Last " ++ str_of_int n ++ lit " days")
       /\ rows f = List.filter (since df cutoff) (rows df)
       /\ (forall r, In r (rows f) <->
                     In r (rows df)
                     /\ exists t, cell df "timestamp" r = VTime t /\ cutoff <= t)
       /\ (forall r t, In r (rows df) -> cell df "timestamp" r = VTime t ->
                       ~ In r (rows f) -> t < cutoff).
Proof.
  intros Hc Hp Hv Hall Hcus n cutoff.
  pose proof (dropna_some_valid df Hc Hv) as Hne.
  assert (Hin : forall r, In r (List.filter (since df cutoff) (rows df)) <->
                          In r (rows df)
                          /\ exists t, cell df "timestamp" r = VTime t /\ cutoff <= t).
  { intros r. rewrite filter_In. unfold since.
    split; intros [H1 H2]; (split; [exact H1|]).
    - destruct (cell df "timestamp" r); try discriminate.
      exists ns. split; [reflexivity|]. lia.
    - destruct H2 as (t & -> & Ht). apply Z.leb_le. exact Ht. }
  split.
  { subst n. destruct (widget (choice_pick ui) Days14); simpl; tauto. }
  exists {| columns := columns df; rows := List.filter (since df cutoff) (rows df) |}.
  split; [|split; [reflexivity|split; [exact Hin|]]].
  - unfold time_filter_ui. rewrite Hc. simpl negb. cbv iota. rewrite Hne.
    subst cutoff n.
    destruct (widget (choice_pick ui) Days14); try congruence;
      cbv zeta; rewrite (between_since df _ Hp); reflexivity.
  - intros r t Hr Ht Hnot. destruct (Z.lt_ge_cases t cutoff) as [|Hge]; [assumption|].
    destruct Hnot. apply Hin. split; [exact Hr|]. exists t. auto.
Qed.

(** The untouched select box, with the clock at day 20: the row of day 6
    is kept, the row of day 5 is not. *)
Lemma time_filter_days_witness :
  let r0 := (0, [VTime (Timedelta_days 5 + 1)]) in
  let r1 := (1, [VTime (Timedelta_days 6)]) in
  let df := {| columns := ["timestamp"]; rows := [r0; r1] |} in
  exists f,
    time_filter_ui df {| choice_pick := None; start_pick := None; end_pick := None;
                         now := Timedelta_days 20 |}
    = Ok (f, lit "Last 14 days")
    /\ rows f = [r1].
Proof.
  intros r0 r1 df.
  destruct (time_filter_days df {| choice_pick := None; start_pick := None;
                                   end_pick := None; now := Timedelta_days 20 |})
    as (_ & f & Hf & Hr & _); try reflexivity; try discriminate.
  - repeat constructor.
  - exists r0. split; [left|]; reflexivity.
  - exists f. split; [exact Hf | exact Hr].
Defined.

Lemma custom_equation df ui :
  has_column "timestamp" df = true ->
  timestamps_parsed df ->
  (exists r, In r (rows df) /\ valid_ts df r = true) ->
  widget (choice_pick ui) Days14 = Custom ->
  exists tmin tmax,
    (forall r, In r (rows df) -> valid_ts df r = true ->
               tmin <= ts_or_zero df r <= tmax)
    /\ let start := widget (start_pick ui) (date_of tmin) in
       let end_ := widget (end_pick ui) (date_of tmax) in
       time_filter_ui df ui
       = Ok ({| columns := columns df;
                rows := List.filter
                          (in_window df (Timestamp start)
                             (Timestamp end_ + Timedelta_days 1 - Timedelta_seconds 1))
                          (rows df) |},
             lit "Custom: " ++ isoformat start ++ lit " to " ++ isoformat end_).
Proof.
  intros Hc Hp Hv Hch.
  pose proof (dropna_some_valid df Hc Hv) as Hne.
  pose proof (dropna_timestamps df Hp) as Hts.
  destruct (rows (dropna "timestamp" df)) as [|r0 l] eqn:Er;
    [unfold empty in Hne; rewrite Er in Hne; discriminate|].
  exists (fold_left Z.min (map (ts_or_zero df) l) (ts_or_zero df r0)),
         (fold_left Z.max (map (ts_or_zero df) l) (ts_or_zero df r0)).
  split.
  - intros r Hr Hval.
    assert (Hin : In (ts_or_zero df r) (ts_or_zero df r0 :: map (ts_or_zero df) l)).
    { change (In (ts_or_zero df r) (map (ts_or_zero df) (r0 :: l))).
      apply in_map. rewrite <- Er. simpl. apply filter_In. split; assumption. }
    split; [apply fold_min_le | apply fold_max_ge]; exact Hin.
  - cbv zeta. unfold time_filter_ui. rewrite Hc. simpl negb. cbv iota.
    rewrite Hne, Hch. cbv iota. unfold ts_min, ts_max. rewrite Hts. cbn [map bind].
    rewrite (between_filter df _ _ Hp). reflexivity.
Qed.

Lemma filter_none {A} (g : A -> bool) l :
  (forall a, In a l -> g a = false) -> List.filter g l = [].
Proof.
  induction l as [|a l IH]; intros H; simpl; [reflexivity|].
  rewrite (H a) by (left; reflexivity). apply IH. intros; apply H; right; assumption.
Qed.

(** X5. With the option [Custom] and a start date after the end date (the
    two date inputs do not check each other), the filter returns a table
    without rows. *)
Theorem time_filter_custom_reversed (df : DataFrame) (ui : widgets) (start end_ : date) :
  has_column "timestamp" df = true ->
  timestamps_parsed df ->
  (exists r, In r (rows df) /\ valid_ts df r = true) ->
  choice_pick ui = Some Custom ->
  start_pick ui = Some start ->
  end_pick ui = Some end_ ->
  days_from_civil end_ < days_from_civil start ->
  exists f label, time_filter_ui df ui = Ok (f, label)
                  /\ columns f = columns df /\ rows f = [].
Proof.
  intros Hc Hp Hv Hch Hs He Hlt.
  destruct (custom_equation df ui Hc Hp Hv) as (tmin & tmax & _ & Heq);
    [rewrite Hch; reflexivity|].
  cbv zeta in Heq. rewrite Hs, He in Heq. simpl widget in Heq.
  eexists _, _. split; [exact Heq|]. split; [reflexivity|]. simpl rows.
  apply filter_none. intros r _.
  unfold in_window. destruct (cell df "timestamp" r); try reflexivity.
  apply andb_false_iff.
  rewrite Z.leb_gt, Z.leb_gt. unfold Timestamp, Timedelta_days, Timedelta_seconds. lia.
Qed.

(** February as start and January as end. *)
Lemma time_filter_custom_reversed_witness :
  let feb1 := {| year := 2024; month := 2; day := 1 |} in
  let jan1 := {| year := 2024; month := 1; day := 1 |} in
  let df := {| columns := ["timestamp"];
               rows := [(0, [VTime (Timestamp jan1)]); (1, [VTime (Timestamp feb1)])] |} in
  exists f label,
    time_filter_ui df {| choice_pick := Some Custom; start_pick := Some feb1;
                         end_pick := Some jan1; now := 0 |} = Ok (f, label)
    /\ columns f = columns df /\ rows f = [].
Proof.
  intros feb1 jan1 df.
  apply (time_filter_custom_reversed df _ feb1 jan1); try reflexivity.
  - repeat constructor.
  - exists (0, [VTime (Timestamp jan1)]). split; [left|]; reflexivity.
Defined.

(** X6. With the option [Custom] and both date inputs untouched, the window
    runs from the first to the last date of the data.  It keeps every row
    with a valid timestamp when the timestamps are whole seconds; a row
    with a valid timestamp that it leaves out is stamped inside the last
    second of a day, after 23:59:59.000, because the window ends at
    23:59:59 of the last date. *)
Theorem time_filter_custom_default (df : DataFrame) (ui : widgets) :
  has_column "timestamp" df = true ->
  timestamps_parsed df ->
  (exists r, In r (rows df) /\ valid_ts df r = true) ->
  choice_pick ui = Some Custom ->
  start_pick ui = None ->
  end_pick ui = None ->
  exists f label,
    time_filter_ui df ui = Ok (f, label)
    /\ (whole_seconds df -> rows f = List.filter (valid_ts df) (rows df))
    /\ (forall r t, In r (rows df) -> cell df "timestamp" r = VTime t ->
                    ~ In r (rows f) ->
                    Timedelta_seconds 86399 < t mod Timedelta_days 1).
Proof.
  intros Hc Hp Hv Hch Hs He.
  destruct (custom_equation df ui Hc Hp Hv) as (tmin & tmax & Hb & Heq);
    [rewrite Hch; reflexivity|].
  cbv zeta in Heq. rewrite Hs, He in Heq. simpl widget in Heq.
  eexists _, _. split; [exact Heq|]. simpl rows.
  pose proof (date_of_Timestamp_le tmin) as Hlo.
  pose proof (date_of_Timestamp_le tmax) as Hhi.
  assert (Hrow : forall r t, In r (rows df) -> cell df "timestamp" r = VTime t ->
                             tmin <= t <= tmax).
  { intros r t Hr Ht. specialize (Hb r Hr). unfold valid_ts, ts_or_zero in Hb.
    rewrite Ht in Hb. apply Hb. reflexivity. }
  unfold Timestamp in *. set (K := days_from_civil (date_of tmax)) in *.
  set (J := days_from_civil (date_of tmin)) in *. clearbody K J.
  unfold Timedelta_days, Timedelta_seconds in *.
  split.
  - intros Hw. apply filter_ext_in. intros r Hr.
    unfold timestamps_parsed in Hp. rewrite List.Forall_forall in Hp.
    specialize (Hp r Hr). unfold in_window, valid_ts.
    destruct (cell df "timestamp" r) as [| | |t|] eqn:Ec; simpl in *; try easy.
    specialize (Hrow r t Hr Ec). specialize (Hw r t Hr Ec).
    unfold Timedelta_seconds in Hw.
    apply andb_true_iff. rewrite !Z.leb_le.
    Z.to_euclidean_division_equations. lia.
  - intros r t Hr Ec Hnot. specialize (Hrow r t Hr Ec).
    assert (Hout : in_window df (J * 86400 * 1000000000)
                     (K * 86400 * 1000000000 + 1 * 86400 * 1000000000 - 1 * 1000000000) r
                   = false).
    { destruct (in_window df _ _ r) eqn:E; [|reflexivity].
      destruct Hnot. apply filter_In. split; assumption. }
    unfold in_window in Hout. rewrite Ec in Hout.
    apply andb_false_iff in Hout. rewrite !Z.leb_gt in Hout.
    Z.to_euclidean_division_equations. lia.
Qed.

(** Readings at whole seconds over two days: the untouched range keeps
    them all and drops the row without a timestamp. *)
Lemma time_filter_custom_default_witness :
  let r0 := (0, [VTime (Timedelta_days 19723 + Timedelta_seconds 30)]) in
  let r1 := (1, [VNaT]) in
  let r2 := (2, [VTime (Timedelta_days 19724 + Timedelta_seconds 86399)]) in
  let df := {| columns := ["timestamp"]; rows := [r0; r1; r2] |} in
  exists f,
    time_filter_ui df {| choice_pick := Some Custom; start_pick := None;
                         end_pick := None; now := 0 |}
    = Ok (f, lit "Custom: 2024-01-01 to 2024-01-02")
    /\ rows f = [r0; r2].
Proof.
  intros r0 r1 r2 df.
  destruct (time_filter_custom_default df
              {| choice_pick := Some Custom; start_pick := None;
                 end_pick := None; now := 0 |})
    as (f & label & Hf & Hall & _); try reflexivity.
  - repeat constructor.
  - exists r0. split; [left|]; reflexivity.
  - exists f. split.
    + rewrite Hf. f_equal. f_equal.
      assert (E : time_filter_ui df {| choice_pick := Some Custom; start_pick := None;
                                       end_pick := None; now := 0 |}
                  = Ok ({| columns := ["timestamp"]; rows := [r0; r2] |},
                        lit "Custom: 2024-01-01 to 2024-01-02")) by reflexivity.
      rewrite E in Hf. congruence.
    + apply Hall. intros r t [<- | [<- | [<- | []]]] [= <-]; reflexivity.
Defined.

(** ** Alerts, continued *)

Lemma float_gt_int_mono f t t' :
  t <= t' -> float_gt_int f t' = true -> float_gt_int f t = true.
Proof.
  intros Hle H. apply float_gt_int_spec in H. apply float_gt_int_spec.
  destruct H as [H | (q & Hq & Hlt)]; [left; exact H|].
  right. exists q. split; [exact Hq|].
  eapply Qle_lt_trans; [|exact Hlt]. rewrite <- Zle_Qle. exact Hle.
Qed.

(** X7. Raising a threshold never adds an alert: a cell that is painted
    under the higher threshold is painted under the lower one. *)
Theorem alert_antitone (fos : str -> option float) (row : Series)
    (thr thr' : gmap string Z) (col : string) (t t' : Z) :
  thr !! col = Some t ->
  thr' !! col = Some t' ->
  t <= t' ->
  cell_style fos row thr' col = alert_css ->
  cell_style fos row thr col = alert_css.
Proof.
  intros Ht Ht' Hle H.
  apply cell_style_alert in H as (Hm & v & f & t0 & Hv & Hf & Ht0 & Hgt).
  apply cell_style_alert. split; [exact Hm|].
  exists v, f, t. repeat split; try assumption.
  rewrite Ht' in Ht0. injection Ht0 as <-. exact (float_gt_int_mono f t t' Hle Hgt).
Qed.

(** A reading of 88.0 alerts at 85 and therefore at 80. *)
Lemma alert_antitone_witness :
  let row : Series := [("cpu", VFloat 88)] in
  cell_style (fun _ => None) row (<["cpu" := 85]> ∅) "cpu" = alert_css
  /\ cell_style (fun _ => None) row (<["cpu" := 80]> ∅) "cpu" = alert_css.
Proof.
  intros row.
  assert (H : cell_style (fun _ => None) row (<["cpu" := 85]> ∅) "cpu" = alert_css)
    by (vm_compute; reflexivity).
  split; [exact H|].
  apply (alert_antitone (fun _ => None) row (<["cpu" := 80]> ∅) (<["cpu" := 85]> ∅)
           "cpu" 80 85); [reflexivity | reflexivity | lia | exact H].
Defined.

Lemma position_nth k cols i :
  position k cols = Some i -> nth_error cols i = Some k.
Proof.
  revert i. induction cols as [|c cols IH]; intros i; simpl; [discriminate|].
  destruct (String.eqb_spec k c) as [->|Hne].
  - intros [= <-]. reflexivity.
  - destruct (position k cols) as [j|]; simpl; [|discriminate].
    intros [= <-]. simpl. apply IH. reflexivity.
Qed.

Lemma filter_label_absent k cols (cells : list value) :
  ~ In k cols ->
  List.filter (fun kv : string * value => String.eqb (fst kv) k) (combine cols cells) = [].
Proof.
  intros Hk. apply filter_none. intros [c v] Hin. simpl.
  apply String.eqb_neq. intros ->. apply Hk. exact (in_combine_l _ _ _ _ Hin).
Qed.

Lemma getitem_combine cols (cells : list value) k i :
  List.NoDup cols ->
  length cells = length cols ->
  position k cols = Some i ->
  getitem (combine cols cells) k = Ok (nth i cells VNone).
Proof.
  intros Hnd. revert cells i.
  induction Hnd as [|c cols Hc Hnd IH]; intros [|v cells] i Hlen; simpl in *;
    try discriminate.
  unfold getitem. simpl. destruct (String.eqb_spec k c) as [->|Hne].
  - intros [= <-]. rewrite String.eqb_refl.
    rewrite (filter_label_absent c cols cells Hc). reflexivity.
  - destruct (position k cols) as [j|] eqn:Ej; simpl; [|discriminate].
    intros [= <-].
    replace (String.eqb c k) with false
      by (symmetry; apply String.eqb_neq; congruence).
    apply (IH cells j); [lia | reflexivity].
Qed.

Lemma map_fst_combine_eq {A B} (l : list A) (l' : list B) :
  length l' = length l -> map fst (combine l l') = l.
Proof.
  revert l'. induction l as [|a l IH]; intros [|b l'] H; simpl in *; try discriminate;
    [reflexivity|]. f_equal. apply IH. lia.
Qed.

Lemma style_at_position fos cols (cells : list value) thr k i :
  length cells = length cols ->
  position k cols = Some i ->
  nth i (_style fos (combine cols cells) thr) ""%string
  = cell_style fos (combine cols cells) thr k.
Proof.
  intros Hlen Hpos. unfold _style. rewrite (map_fst_combine_eq cols cells Hlen).
  apply nth_error_nth. apply map_nth_error, position_nth, Hpos.
Qed.

Lemma count_map {A} (g : A -> bool) l :
  length (List.filter (fun b : bool => b) (map g l)) = length (List.filter g l).
Proof.
  induction l as [|a l IH]; simpl; [reflexivity|].
  destruct (g a); simpl; rewrite IH; reflexivity.
Qed.

Lemma filter_map_length {A B} (p : B -> bool) (h : A -> B) l :
  length (List.filter p (map h l)) = length (List.filter (fun a => p (h a)) l).
Proof.
  induction l as [|a l IH]; simpl; [reflexivity|].
  destruct (p (h a)); simpl; rewrite IH; reflexivity.
Qed.

Lemma filter_length_le {A} (p : A -> bool) l : (length (List.filter p l) <= length l)%nat.
Proof.
  induction l as [|a l IH]; simpl; [lia|]. destruct (p a); simpl; lia.
Qed.

(** X8. On a table with one cell per column and distinct row and column
    labels, for a metric column that holds numbers and a threshold of at
    most 53 bits (a slider gives 0 to 100), the alert count of the
    analysis page is the number of rows in which [highlight_alerts] paints
    that column; it lies between zero and the number of rows. *)
Theorem alert_count_matches_highlight
    (Series_gt : list value -> Z -> result (list bool)) (fos : str -> option float)
    (df : DataFrame) (thr : gmap string Z) (k : string) (i : nat) (t : Z) :
  compares_floats Series_gt ->
  List.NoDup (map fst (rows df)) ->
  List.NoDup (columns df) ->
  rectangular df ->
  position k (columns df) = Some i ->
  is_metric k = true ->
  thr !! k = Some t ->
  - 2 ^ 53 <= t <= 2 ^ 53 ->
  (forall r, In r (rows df) -> exists f, cell df k r = VFloat f) ->
  exists n styles,
    alert_count Series_gt df thr k = Ok n
    /\ highlight_alerts fos df thr = Ok styles
    /\ n = Z.of_nat (length (List.filter
                               (fun st => String.eqb (nth i st ""%string) alert_css)
                               styles))
    /\ 0 <= n <= len (rows df).
Proof.
  intros Hgt Hidx Hnd Hrect Hpos Hm Ht Hbound Hcol.
  set (fl := fun r => match cell df k r with VFloat f => f | _ => PrimFloat.zero end).
  assert (Ecol : column df k = map VFloat (map fl (rows df))).
  { unfold column. rewrite map_map. apply map_ext_in. intros r Hr.
    destruct (Hcol r Hr) as [f Hf]. unfold fl. rewrite Hf. reflexivity. }
  assert (Ecount : alert_count Series_gt df thr k
                   = Ok (Z.of_nat (length (List.filter
                                             (fun r => float_gt_int (fl r) t) (rows df))))).
  { unfold alert_count, has_column, threshold. rewrite Hpos, Ht. cbn [bind].
    rewrite Ecol, (Hgt _ t Hbound). cbn [bind]. rewrite map_map, count_map. reflexivity. }
  eexists. eexists. split; [exact Ecount|].
  split; [exact (highlight_alerts_unique fos df thr Hidx Hnd)|]. split.
  - f_equal. rewrite filter_map_length. f_equal.
    apply filter_ext_in. intros r Hr.
    unfold rectangular in Hrect. rewrite List.Forall_forall in Hrect.
    specialize (Hrect r Hr). unfold row_of.
    rewrite (style_at_position fos _ _ thr k i Hrect Hpos).
    unfold cell_style, exceeds, threshold. rewrite Hm, Ht.
    rewrite (getitem_combine _ _ k i Hnd Hrect Hpos). cbn [bind].
    destruct (Hcol r Hr) as [f Hf]. unfold fl. unfold cell in Hf. rewrite Hpos in Hf.
    unfold cell. rewrite Hpos, Hf. cbn.
    destruct (float_gt_int f t); reflexivity.
  - pose proof (filter_length_le (fun r => float_gt_int (fl r) t) (rows df)).
    unfold len. lia.
Qed.

(** The rows [[{cpu:90}, {cpu:50}, {cpu:85}]] against the threshold 80,
    under a comparison that compares the numbers cell by cell: two alerts,
    and two rows painted. *)
Lemma alert_count_matches_highlight_witness :
  let df := {| columns := ["cpu"];
               rows := [(0, [VFloat 90]); (1, [VFloat 50]); (2, [VFloat 85])] |} in
  let thr : gmap string Z := <["cpu" := 80]> ∅ in
  let gt := fun (col : list value) (t : Z) =>
    mapM (fun v => match v with
                   | VFloat f => Ok (float_gt_int f t)
                   | _ => Raise TypeError
                   end) col in
  alert_count gt df thr "cpu" = Ok 2
  /\ highlight_alerts (fun _ => None) df thr
     = Ok [[alert_css]; [""%string]; [alert_css]].
Proof.
  intros df thr gt.
  destruct (alert_count_matches_highlight gt (fun _ => None) df thr "cpu" 0 80)
    as (n & styles & Hn & Hst & Heq & _).
  - intros fs t _. unfold gt. apply mapM_map_Ok. reflexivity.
  - repeat constructor; simpl; intuition discriminate.
  - repeat constructor; simpl; tauto.
  - repeat constructor.
  - reflexivity.
  - reflexivity.
  - reflexivity.
  - lia.
  - intros r [<- | [<- | [<- | []]]]; eexists; reflexivity.
  - split; [|vm_compute; reflexivity].
    rewrite Hn, Heq.
    assert (Es : styles = [[alert_css]; [""%string]; [alert_css]]).
    { assert (E : highlight_alerts (fun _ => None) df thr
                  = Ok [[alert_css]; [""%string]; [alert_css]])
        by (vm_compute; reflexivity).
      congruence. }
    rewrite Es. vm_compute. reflexivity.
Defined.

(** ** The configuration page, continued *)

Lemma slide_post s t d key cur picked :
  heap s !! t = Some d -> d !! key = Some cur ->
  slide s t key picked
  = Ok {| heap := alter (insert key (widget picked cur)) t (heap s); thr := thr s |}.
Proof.
  intros Hd Hk. unfold slide, dict_get, dict_set. rewrite Hd, Hk. reflexivity.
Qed.

Lemma page_config_run s ui t d c m k :
  thr s = Some t ->
  heap s !! t = Some d ->
  d !! "cpu" = Some c -> d !! "memory" = Some m -> d !! "disk" = Some k ->
  let d1 := <["cpu" := widget (cpu_slider ui) c]> d in
  let d2 := <["memory" := widget (memory_slider ui) m]> d1 in
  let d3 := <["disk" := widget (disk_slider ui) k]> d2 in
  let h3 := alter (insert "disk"%string (widget (disk_slider ui) k)) t
              (alter (insert "memory"%string (widget (memory_slider ui) m)) t
                 (alter (insert "cpu"%string (widget (cpu_slider ui) c)) t (heap s))) in
  page_config s ui = Ok {| heap := h3; thr := Some t |} /\ h3 !! t = Some d3.
Proof.
  intros Ht Hd Hc Hm Hk d1 d2 d3 h3.
  set (s1 := {| heap := alter (insert "cpu"%string (widget (cpu_slider ui) c)) t (heap s);
                thr := thr s |}).
  set (s2 := {| heap := alter (insert "memory"%string (widget (memory_slider ui) m)) t
                          (heap s1);
                thr := thr s1 |}).
  assert (L1 : heap s1 !! t = Some d1)
    by (cbn [heap s1]; rewrite lookup_alter_eq, Hd; reflexivity).
  assert (L2 : heap s2 !! t = Some d2)
    by (cbn [heap s2]; rewrite lookup_alter_eq, L1; reflexivity).
  assert (M1 : d1 !! "memory" = Some m)
    by (subst d1; rewrite lookup_insert_ne by discriminate; exact Hm).
  assert (K2 : d2 !! "disk" = Some k)
    by (subst d2 d1; rewrite !lookup_insert_ne by discriminate; exact Hk).
  split.
  - unfold page_config. rewrite Ht.
    rewrite (slide_post s t d "cpu" c (cpu_slider ui) Hd Hc). cbn [bind]. fold s1.
    rewrite (slide_post s1 t d1 "memory" m (memory_slider ui) L1 M1). cbn [bind]. fold s2.
    rewrite (slide_post s2 t d2 "disk" k (disk_slider ui) L2 K2). cbn [bind heap thr].
    subst s2 s1. cbn [heap thr]. rewrite Ht. destruct (save ui); reflexivity.
  - subst h3 s2 s1. cbn [heap] in L2. rewrite lookup_alter_eq, L2. reflexivity.
Qed.

(** X9. On a session whose thresholds hold the three keys, the
    configuration page returns a session that refers to the same
    dictionary, in which each of [cpu], [memory] and [disk] is what its
    slider returned (its previous value when the slider was left alone);
    every other key and every other object of the session is untouched,
    the next run's [setdefault] changes nothing, and with the three sliders
    left alone the session is exactly as before. *)
Theorem page_config_post (s : session) (ui : config_widgets)
    (t : nat) (d : gmap string Z) (c m k : Z) :
  thr s = Some t ->
  heap s !! t = Some d ->
  d !! "cpu" = Some c -> d !! "memory" = Some m -> d !! "disk" = Some k ->
  let d' := <["disk" := widget (disk_slider ui) k]>
              (<["memory" := widget (memory_slider ui) m]>
                 (<["cpu" := widget (cpu_slider ui) c]> d)) in
  exists s',
    page_config s ui = Ok s'
    /\ thr s' = Some t
    /\ thresholds s' = Some d'
    /\ (forall r, r <> t -> heap s' !! r = heap s !! r)
    /\ (forall key, key <> "cpu"%string -> key <> "memory"%string ->
                    key <> "disk"%string -> d' !! key = d !! key)
    /\ setdefault_thr s' = s'
    /\ (cpu_slider ui = None -> memory_slider ui = None -> disk_slider ui = None ->
        s' = s).
Proof.
  intros Ht Hd Hc Hm Hk d'.
  destruct (page_config_run s ui t d c m k Ht Hd Hc Hm Hk) as [E L3].
  cbv zeta in E, L3. eexists. split; [exact E|].
  split; [reflexivity|]. split; [exact L3|]. split; [|split; [|split]].
  - intros r Hr. cbn [heap]. rewrite !lookup_alter_ne by congruence. reflexivity.
  - intros key H1 H2 H3. subst d'. rewrite !lookup_insert_ne by congruence. reflexivity.
  - reflexivity.
  - intros E1 E2 E3. rewrite E1, E2, E3. cbn [widget].
    destruct s as [h r]. cbn [heap thr] in *. subst r. f_equal.
    rewrite (alter_id _ h t) by
      (intros x Hx; rewrite Hd in Hx; injection Hx as <-; apply insert_id, Hc).
    rewrite (alter_id _ h t) by
      (intros x Hx; rewrite Hd in Hx; injection Hx as <-; apply insert_id, Hm).
    apply alter_id. intros x Hx. rewrite Hd in Hx. injection Hx as <-.
    apply insert_id, Hk.
Qed.

(** The memory slider moved to 70 and Save pressed, on a fresh session. *)
Lemma page_config_post_witness :
  exists s',
    page_config (setdefault_thr new_session)
      {| cpu_slider := None; memory_slider := Some 70; disk_slider := None; save := true |}
    = Ok s'
    /\ thresholds s' = Some (<["disk" := 90]> (<["memory" := 70]> (<["cpu" := 80]> defaults))).
Proof.
  destruct (page_config_post (setdefault_thr new_session)
              {| cpu_slider := None; memory_slider := Some 70; disk_slider := None;
                 save := true |} 0%nat defaults 80 85 90)
    as (s' & Hs & _ & Hthr & _); try reflexivity.
  exists s'. split; [exact Hs | exact Hthr].
Defined.

Lemma rerun_config_ok s ui :
  thr s = None \/ thresholds_ok s -> sliders_ok ui ->
  exists s', rerun_config s ui = Ok s' /\ thresholds_ok s'.
Proof.
  intros Hs (Pc & Pm & Pk).
  assert (Hok : thresholds_ok (setdefault_thr s)).
  { destruct Hs as [Hn | Hok].
    - unfold setdefault_thr. rewrite Hn.
      exists (fresh (dom (heap s))), defaults, 80, 85, 90.
      cbn [thr heap]. rewrite lookup_insert_eq.
      repeat split; (reflexivity || lia).
    - destruct Hok as (t & d & c & m & k & Ht & Hrest).
      rewrite (setdefault_keeps s t Ht). exists t, d, c, m, k. auto. }
  destruct Hok as (t & d & c & m & k & Ht & Hd & Hc & Hm & Hk & Rc & Rm & Rk).
  destruct (page_config_run (setdefault_thr s) ui t d c m k Ht Hd Hc Hm Hk)
    as [Hs' Hthr'].
  cbv zeta in Hs', Hthr'. eexists. split; [exact Hs'|].
  eexists t, _, _, _, _. split; [reflexivity|]. split; [exact Hthr'|].
  rewrite lookup_insert_ne, lookup_insert_ne, lookup_insert_eq by discriminate.
  rewrite lookup_insert_ne, lookup_insert_eq by discriminate.
  rewrite lookup_insert_eq.
  repeat split; try reflexivity;
    [destruct (cpu_slider ui) | destruct (cpu_slider ui)
     | destruct (memory_slider ui) | destruct (memory_slider ui)
     | destruct (disk_slider ui) | destruct (disk_slider ui)];
    simpl in *; lia.
Qed.

Lemma reruns_config_inv uis :
  forall s, thr s = None \/ thresholds_ok s ->
            Forall sliders_ok uis ->
            exists s', reruns_config s uis = Ok s'
                       /\ (thr s' = None \/ thresholds_ok s').
Proof.
  induction uis as [|ui uis IH]; intros s Hs Hok; simpl.
  - eauto.
  - inversion Hok as [|? ? Hui Hrest]; subst.
    destruct (rerun_config_ok s ui Hs Hui) as (s1 & -> & H1). simpl.
    apply IH; [right; exact H1 | exact Hrest].
Qed.

(** X10. Along any sequence of runs of the configuration page, from a new
    session, the page never raises and the three thresholds stay between
    0 and 100, the bounds of the sliders: the value that the page hands to
    each slider as its default is always one the slider accepts. *)
Theorem reruns_config_ok (uis : list config_widgets) :
  Forall sliders_ok uis ->
  uis <> [] ->
  exists s', reruns_config new_session uis = Ok s' /\ thresholds_ok s'.
Proof.
  intros Hok Hne. destruct uis as [|ui uis]; [congruence|]. simpl.
  inversion Hok as [|? ? Hui Hrest]; subst.
  destruct (rerun_config_ok new_session ui (or_introl eq_refl) Hui) as (s1 & -> & H1).
  simpl. destruct (reruns_config_inv uis s1 (or_intror H1) Hrest) as (s' & Hs' & H').
  exists s'. split; [exact Hs'|].
  destruct H' as [Hn | H']; [|exact H'].
  clear - H1 Hs' Hn Hrest. exfalso. revert s1 H1 Hs'.
  induction Hrest as [|ui uis Hui _ IH]; intros s1 H1; simpl.
  - intros [= <-]. destruct H1 as (t & ? & ? & ? & ? & Ht & _). congruence.
  - destruct (rerun_config_ok s1 ui (or_intror H1) Hui) as (s2 & -> & H2). simpl.
    apply IH, H2.
Qed.

(** Two runs: the CPU slider to 0, then the disk slider to 100. *)
Lemma reruns_config_ok_witness :
  exists s',
    reruns_config new_session
      [{| cpu_slider := Some 0; memory_slider := None; disk_slider := None; save := false |};
       {| cpu_slider := None; memory_slider := None; disk_slider := Some 100; save := true |}]
    = Ok s'
    /\ thresholds_ok s'.
Proof.
  apply reruns_config_ok; [|discriminate].
  repeat constructor; simpl; lia.
Defined.

(** ** The data loader *)

Lemma position_lt k cols i : position k cols = Some i -> (i < length cols)%nat.
Proof.
  intros H. apply position_nth in H. apply nth_error_Some. congruence.
Qed.

Lemma set_column_present k vals df i df' :
  position k (columns df) = Some i ->
  rectangular df ->
  set_column k vals df = Ok df' ->
  columns df' = columns df
  /\ rectangular df'
  /\ map fst (rows df') = map fst (rows df)
  /\ (forall r', In r' (rows df') -> In (cell df' k r') vals)
  /\ (forall k', k' <> k -> column df' k' = column df k').
Proof.
  intros Hpos Hrect. unfold set_column. rewrite Hpos.
  destruct (Nat.eqb_spec (length vals) (length (rows df))) as [Hlen|]; [|discriminate].
  simpl negb. cbv iota. intros [= <-]. cbn [columns rows].
  unfold rectangular in *. rewrite List.Forall_forall in Hrect.
  split; [reflexivity|]. split; [|split; [|split]].
  - apply List.Forall_forall. intros r' Hr'.
    apply in_map_iff in Hr' as ([r v] & <- & Hin). cbn [fst snd].
    rewrite length_insert. apply Hrect. exact (in_combine_l _ _ _ _ Hin).
  - rewrite map_map. cbn [fst].
    clear Hrect. revert vals Hlen. induction (rows df) as [|r l IH]; intros [|v vals] Hlen;
      simpl in *; try discriminate; [reflexivity|].
    f_equal. apply IH. lia.
  - intros r' Hr'. apply in_map_iff in Hr' as ([r v] & <- & Hin).
    unfold cell. cbn [columns fst snd]. rewrite Hpos.
    rewrite (nth_lookup_Some _ _ _ v); [exact (in_combine_r _ _ _ _ Hin)|].
    apply list_lookup_insert_eq.
    rewrite (Hrect r (in_combine_l _ _ _ _ Hin)). exact (position_lt _ _ _ Hpos).
  - intros k' Hk'. unfold column. cbn [rows]. rewrite map_map.
    unfold cell. cbn [columns fst snd].
    destruct (position k' (columns df)) as [j|] eqn:Ej.
    + assert (Hij : i <> j).
      { intros ->. apply position_nth in Hpos, Ej. congruence. }
      clear Hrect. revert vals Hlen.
      induction (rows df) as [|r l IH]; intros [|v vals] Hlen;
        simpl in *; try discriminate; [reflexivity|].
      f_equal; [|apply IH; lia].
      rewrite !nth_lookup, list_lookup_insert_ne by exact Hij. reflexivity.
    + clear Hrect. revert vals Hlen.
      induction (rows df) as [|r l IH]; intros [|v vals] Hlen;
        simpl in *; try discriminate; [reflexivity|].
      f_equal. apply IH. lia.
Qed.

Section LoaderFacts.

Variable to_datetime : list value -> result (list value).
Hypothesis Hcoerce : coerces to_datetime.

Lemma load_df_cases st :
  load_df to_datetime st = empty_frame
  \/ (exists df, query st = Ok df /\ has_column "timestamp" df = false
                 /\ load_df to_datetime st = df)
  \/ (exists df ts i, query st = Ok df /\ position "timestamp" (columns df) = Some i
                      /\ to_datetime (column df "timestamp") = Ok ts
                      /\ set_column "timestamp" ts df = Ok (load_df to_datetime st)).
Proof.
  unfold load_df. destruct (db_exists st); [|left; reflexivity]. simpl negb. cbv iota.
  destruct (query st) as [df|e]; [|left; reflexivity]. cbn [bind].
  unfold has_column.
  destruct (position "timestamp" (columns df)) as [i|] eqn:Ei.
  - destruct (to_datetime (column df "timestamp")) as [ts|e] eqn:Ets;
      [|left; reflexivity]. cbn [bind].
    destruct (set_column "timestamp" ts df) as [df'|e] eqn:Eset; [|left; reflexivity].
    right. right. exists df, ts, i. repeat split; assumption.
  - right. left. exists df. repeat split. unfold has_column. rewrite Ei. reflexivity.
Qed.


End LoaderFacts.


(** ** The report *)

Lemma latin1_str_of_int z : latin1 (str_of_int z).
Proof. apply latin1_lit. Qed.

Ltac latin1_parts :=
  repeat (rewrite latin1_app; split);
  try apply latin1_lit; try apply latin1_str_of_int; try assumption.

(** X13. The report that the Generate PDF button builds from what the time
    filter, [stats_for] and the thresholds gave has eighteen lines, all of
    them Latin-1 text as soon as the formatted numbers and dates are, and
    [pdf_bytes] returns a document for it: on this path the encoder does
    not raise. *)
Theorem report_pdf_returns
    (Series_mean Series_max Series_min : list value -> result value)
    (fos : str -> option float) (fmt2 : float -> str)
    (df f : DataFrame) (ui : widgets) (label gen tr : str)
    (s : gmap string (float * float * float)) (t : gmap string Z)
    (c m d a_cpu a_mem a_disk : Z) :
  (forall x, latin1 (fmt2 x)) ->
  latin1 gen ->
  latin1 tr ->
  time_filter_ui df ui = Ok (f, label) ->
  stats_for Series_mean Series_max Series_min fos f = Ok s ->
  t !! "cpu" = Some c -> t !! "memory" = Some m -> t !! "disk" = Some d ->
  exists lines out,
    report_lines fmt2 gen label (len (rows f)) tr s t a_cpu a_mem a_disk = Ok lines
    /\ length lines = 18%nat
    /\ Forall latin1 lines
    /\ pdf_bytes lines = Ok out.
Proof.
  intros Hfmt Hgen Htr Hfilter Hstats Hc Hm Hd.
  assert (Hnd : NoDup metrics).
  { apply NoDup_ListNoDup. unfold metrics.
    repeat constructor; simpl; intuition discriminate. }
  destruct (stats_loop_lookup _ _ _ _ f metrics ∅ s "cpu" Hnd Hstats)
    as (s1 & _ & H1); [simpl; auto|].
  destruct (stats_loop_lookup _ _ _ _ f metrics ∅ s "memory" Hnd Hstats)
    as (s2 & _ & H2); [simpl; auto|].
  destruct (stats_loop_lookup _ _ _ _ f metrics ∅ s "disk" Hnd Hstats)
    as (s3 & _ & H3); [simpl; auto|].
  destruct (time_filter_ui_frame df ui f label Hfilter) as (_ & _ & Hlabel).
  assert (Hstat : forall name x, latin1 (stat_line fmt2 name x)).
  { intros name x. unfold stat_line. latin1_parts; apply Hfmt. }
  eexists. 
  assert (E : report_lines fmt2 gen label (len (rows f)) tr s t a_cpu a_mem a_disk
              = Ok [lit "System Log Analysis Report";
                    lit "----------------------------------------";
                    lit "Generated at: " ++ gen;
                    lit "Filter: " ++ label;
                    lit "Rows: " ++ str_of_int (len (rows f));
                    lit "Time range: " ++ tr;
                    [];
                    lit "Key Statistics:";
                    stat_line fmt2 "CPU   " s1;
                    stat_line fmt2 "Memory" s2;
                    stat_line fmt2 "Disk  " s3;
                    [];
                    lit "Thresholds:";
                    lit "CPU=" ++ str_of_int c ++ lit "%  Memory=" ++ str_of_int m
                      ++ lit "%  Disk=" ++ str_of_int d ++ lit "%";
                    lit "Alert Counts:";
                    lit "CPU > " ++ str_of_int c ++ lit "%: " ++ str_of_int a_cpu;
                    lit "Memory > " ++ str_of_int m ++ lit "%: " ++ str_of_int a_mem;
                    lit "Disk > " ++ str_of_int d ++ lit "%: " ++ str_of_int a_disk]).
  { unfold report_lines, item. rewrite H1, H2, H3, Hc, Hm, Hd. reflexivity. }
  assert (Hall : Forall latin1
                   [lit "System Log Analysis Report";
                    lit "----------------------------------------";
                    lit "Generated at: " ++ gen;
                    lit "Filter: " ++ label;
                    lit "Rows: " ++ str_of_int (len (rows f));
                    lit "Time range: " ++ tr;
                    [];
                    lit "Key Statistics:";
                    stat_line fmt2 "CPU   " s1;
                    stat_line fmt2 "Memory" s2;
                    stat_line fmt2 "Disk  " s3;
                    [];
                    lit "Thresholds:";
                    lit "CPU=" ++ str_of_int c ++ lit "%  Memory=" ++ str_of_int m
                      ++ lit "%  Disk=" ++ str_of_int d ++ lit "%";
                    lit "Alert Counts:";
                    lit "CPU > " ++ str_of_int c ++ lit "%: " ++ str_of_int a_cpu;
                    lit "Memory > " ++ str_of_int m ++ lit "%: " ++ str_of_int a_mem;
                    lit "Disk > " ++ str_of_int d ++ lit "%: " ++ str_of_int a_disk]).
  { repeat (apply List.Forall_cons;
              [first [apply Hstat | apply List.Forall_nil | latin1_parts]|]).
    apply List.Forall_nil. }
  destruct (proj1 (pdf_bytes_total _) Hall) as [out Hout].
  exists out. split; [exact E|]. split; [reflexivity|]. split; assumption.
Qed.

(** A table without a timestamp column, the default thresholds and a
    formatter that writes digits. *)
Lemma report_pdf_returns_witness :
  let df := {| columns := ["cpu"];
               rows := [(0, [VFloat 90]); (1, [VFloat 50]); (2, [VFloat 85])] |} in
  let ui := {| choice_pick := None; start_pick := None; end_pick := None; now := 0 |} in
  exists s lines out,
    stats_for seq_mean seq_max seq_min (fun _ => None) df = Ok s
    /\ report_lines (fun _ => lit "0.00") (lit "2024-01-01 00:00:00") (lit "All") 3
         (lit "N/A") s defaults 2 0 0 = Ok lines
    /\ pdf_bytes lines = Ok out.
Proof.
  intros df ui.
  destruct (stats_for seq_mean seq_max seq_min (fun _ => None) df) as [s|e] eqn:Es;
    [|vm_compute in Es; discriminate].
  destruct (report_pdf_returns seq_mean seq_max seq_min (fun _ => None) (fun _ => lit "0.00")
              df df ui (lit "All") (lit "2024-01-01 00:00:00") (lit "N/A")
              s defaults 80 85 90 2 0 0)
    as (lines & out & Hl & _ & _ & Hout);
    try reflexivity; try apply latin1_lit; try exact Es.
  - intros x. apply latin1_lit.
  - exists s, lines, out. auto.
Defined.

(** ** The dashboard *)

Lemma iloc_last_in df : empty df = false -> In (iloc_last df) (rows df).
Proof.
  unfold empty. intros H.
  assert (Hr : rows df <> []) by (intros E; rewrite E in H; discriminate).
  unfold iloc_last. destruct (exists_last Hr) as (l' & a & ->).
  rewrite List.last_last. apply in_or_app. right. left. reflexivity.
Qed.

(** X14. On a table with rows, one cell per column and distinct column
    names, for a metric column whose latest cell is a number and which has
    a threshold, the status line of the dashboard is an error exactly when
    [highlight_alerts] paints that cell of the last row, and a success
    otherwise. *)
Theorem status_matches_highlight
    (show : value -> str) (fos : str -> option float)
    (df : DataFrame) (t : gmap string Z) (k : string) (i : nat) (f : float) (tk : Z) :
  empty df = false ->
  List.NoDup (columns df) ->
  rectangular df ->
  is_metric k = true ->
  position k (columns df) = Some i ->
  cell df k (iloc_last df) = VFloat f ->
  t !! k = Some tk ->
  let latest := row_of df (iloc_last df) in
  let msg := upper k ++ lit ": " ++ show (VFloat f) ++ lit "% (threshold "
             ++ str_of_int tk ++ lit "%)" in
  (status show fos df latest t k = Ok (EvError msg)
   \/ status show fos df latest t k = Ok (EvSuccess msg))
  /\ (status show fos df latest t k = Ok (EvError msg)
      <-> cell_style fos latest t k = alert_css)
  /\ (status show fos df latest t k = Ok (EvError msg) <-> float_gt_int f tk = true).
Proof.
  intros Hne Hnd Hrect Hm Hpos Hcell Ht latest msg.
  pose proof (iloc_last_in df Hne) as Hin.
  unfold rectangular in Hrect. rewrite List.Forall_forall in Hrect.
  specialize (Hrect _ Hin).
  assert (Hget : getitem latest k = Ok (VFloat f)).
  { subst latest. unfold row_of. rewrite (getitem_combine _ _ k i Hnd Hrect Hpos).
    unfold cell in Hcell. rewrite Hpos in Hcell. rewrite Hcell. reflexivity. }
  assert (Est : status show fos df latest t k
                = Ok (if float_gt_int f tk then EvError msg else EvSuccess msg)).
  { unfold status, has_column, item. rewrite Hpos, Hget, Ht. reflexivity. }
  assert (Ecs : cell_style fos latest t k
                = if float_gt_int f tk then alert_css else ""%string).
  { unfold cell_style, exceeds, threshold. rewrite Hm, Hget, Ht. reflexivity. }
  rewrite Est, Ecs. destruct (float_gt_int f tk).
  - split; [left; reflexivity|]. split; split; reflexivity.
  - split; [right; reflexivity|]. split; split; discriminate.
Qed.

(** A latest reading of 95.0 against the threshold 80: an error line, and
    the cell is painted. *)
Lemma status_matches_highlight_witness :
  let df := {| columns := ["cpu"]; rows := [(0, [VFloat 10]); (1, [VFloat 95])] |} in
  let t : gmap string Z := <["cpu" := 80]> ∅ in
  let show := fun _ : value => lit "95.0" in
  status show (fun _ => None) df (row_of df (iloc_last df)) t "cpu"
  = Ok (EvError (lit "CPU: 95.0% (threshold 80%)"))
  /\ cell_style (fun _ => None) (row_of df (iloc_last df)) t "cpu" = alert_css.
Proof.
  intros df t show.
  destruct (status_matches_highlight show (fun _ => None) df t "cpu" 0 95%float 80)
    as (_ & Hiff & _); try reflexivity.
  - repeat constructor; simpl; tauto.
  - repeat constructor.
  - assert (E : status show (fun _ => None) df (row_of df (iloc_last df)) t "cpu"
                = Ok (EvError (lit "CPU: 95.0% (threshold 80%)")))
      by (vm_compute; reflexivity).
    split; [exact E|]. apply Hiff. exact E.
Defined.

Lemma kpi_raises fmt2 fos latest t label k v :
  getitem latest k = Ok v -> (forall f, py_float fos v <> Ok f) ->
  exists e, kpi fmt2 fos latest t label k = Raise e.
Proof.
  intros Hget Hv. unfold kpi, series_get. unfold getitem in Hget.
  destruct (List.filter _ latest) as [|kv [|kv' l]]; try discriminate.
  injection Hget as ->. cbn [bind].
  destruct (py_float fos v) as [f|e] eqn:E;
    [exfalso; eapply Hv; first [exact E | reflexivity]|]. eauto.
Qed.

(** X15. The dashboard has no handler around the latest reading: on a table
    with rows, when the last cell of a metric column that is there is
    something [float] rejects (a [None], a text that is no number), the
    page raises, whereas [highlight_alerts] leaves such a cell unpainted
    and returns. *)
Theorem dashboard_raises_on_bad_reading
    (fmt2 : float -> str) (show : value -> str) (fos : str -> option float)
    (df : DataFrame) (t : gmap string Z) (k : string) (i : nat) (v : value) :
  empty df = false ->
  List.NoDup (columns df) ->
  rectangular df ->
  In k metrics ->
  position k (columns df) = Some i ->
  cell df k (iloc_last df) = v ->
  (forall f, py_float fos v <> Ok f) ->
  (exists e, dashboard_status fmt2 show fos df t = Raise e)
  /\ cell_style fos (row_of df (iloc_last df)) t k = ""%string.
Proof.
  intros Hne Hnd Hrect Hk Hpos Hcell Hv.
  pose proof (iloc_last_in df Hne) as Hin.
  unfold rectangular in Hrect. rewrite List.Forall_forall in Hrect.
  specialize (Hrect _ Hin).
  assert (Hget : getitem (row_of df (iloc_last df)) k = Ok v).
  { unfold row_of. rewrite (getitem_combine _ _ k i Hnd Hrect Hpos).
    unfold cell in Hcell. rewrite Hpos in Hcell. rewrite Hcell. reflexivity. }
  split.
  - unfold dashboard_status. rewrite Hne. cbv zeta.
    assert (Hr : forall label, exists e,
                 kpi fmt2 fos (row_of df (iloc_last df)) t label k = Raise e)
      by (intros label; exact (kpi_raises fmt2 fos _ t label k v Hget Hv)).
    simpl in Hk. destruct Hk as [<- | [<- | [<- | []]]].
    + destruct (Hr "CPU (%)"%string) as [e ->]. eauto.
    + destruct (kpi fmt2 fos _ t "CPU (%)" "cpu") as [k1|e]; [|eauto]. cbn [bind].
      destruct (Hr "Memory (%)"%string) as [e ->]. eauto.
    + destruct (kpi fmt2 fos _ t "CPU (%)" "cpu") as [k1|e]; [|eauto]. cbn [bind].
      destruct (kpi fmt2 fos _ t "Memory (%)" "memory") as [k2|e]; [|eauto]. cbn [bind].
      destruct (Hr "Disk (%)"%string) as [e ->]. eauto.
  - unfold cell_style, exceeds. destruct (is_metric k); [|reflexivity].
    rewrite Hget. cbn [bind].
    destruct (py_float fos v) as [f|e] eqn:E;
    [exfalso; eapply Hv; first [exact E | reflexivity]|]. reflexivity.
Qed.

(** The memory column is all [None]: the dashboard raises [TypeError]. *)
Lemma dashboard_raises_on_bad_reading_witness :
  let df := {| columns := ["cpu"; "memory"];
               rows := [(0, [VFloat 10; VNone]); (1, [VFloat 20; VNone])] |} in
  let t : gmap string Z := defaults in
  dashboard_status (fun _ => lit "0.00") (fun _ => lit "x") (fun _ => None) df t
  = Raise TypeError
  /\ highlight_alerts (fun _ => None) df t
     = Ok [[""%string; ""%string]; [""%string; ""%string]].
Proof.
  intros df t.
  destruct (dashboard_raises_on_bad_reading (fun _ => lit "0.00") (fun _ => lit "x")
              (fun _ => None) df t "memory" 1 VNone)
    as ([e He] & _); try reflexivity.
  - repeat constructor; simpl; intuition discriminate.
  - repeat constructor.
  - simpl. auto.
  - intros f. discriminate.
  - split; [|vm_compute; reflexivity].
    rewrite He. vm_compute in He. congruence.
Defined.
